(** * Verification of the CAPTCHA decoding pipeline of [simple_captcha_gui.py]

    The development embeds the solver core ([SimpleCaptchaSolver]) and the
    result handling of its GUI callers ([SimpleCaptchaGUI]) as Rocq
    functions.  Python floats are idealised as rationals ([Q]); Python
    exceptions are values of a sum type; the text printed and the inference
    session are passed along as explicit state. *)

From Stdlib Require Import List String Ascii Bool Arith ZArith QArith Lqa Lia.
Import ListNotations.

Local Close Scope Q_scope.
Local Open Scope string_scope.
Local Open Scope nat_scope.

(** ** Python values and exceptions *)

(** An exception instance: its class name and the text of [str(e)]. *)
Record Exception : Type := mkExc { exc_class : string; exc_msg : string }.

(** The values a solve call can hand to its caller. *)
Inductive pyval : Type :=
| PyNone
| PyStr (s : string)
| PyPair (text : string) (confidence : Q).

(** Python truthiness, as used by [if solution:]. *)
Definition truthy (v : pyval) : bool :=
  match v with
  | PyNone => false
  | PyStr s => negb (String.eqb s "")
  | PyPair _ _ => true
  end.

(** Fallible pure computations: [inl e] is a raised exception. *)
Definition result (A : Type) : Type := (Exception + A)%type.

Definition rbind {A B} (r : result A) (k : A -> result B) : result B :=
  match r with
  | inl e => inl e
  | inr a => k a
  end.

Fixpoint rmapM {A B} (f : A -> result B) (l : list A) : result (list B) :=
  match l with
  | [] => inr []
  | a :: r => rbind (f a) (fun b => rbind (rmapM f r) (fun bs => inr (b :: bs)))
  end.

(** ** Tensors over the rationals *)

Definition Tensor1 := list Q.
Definition Tensor2 := list Tensor1.
Definition Tensor3 := list Tensor2.
Definition Tensor4 := list Tensor3.

Definition Qlt_bool (x y : Q) : bool := negb (Qle_bool y x).

Definition Qprod (l : list Q) : Q := fold_right Qmult 1%Q l.
Definition Qsum (l : list Q) : Q := fold_right Qplus 0%Q l.

(** ** The tokenizer *)

Module Tokenizer.

(** Modelled from the spec: the class [Tokenizer] of [tokenizer_base.py],
    which [simple_captcha_gui.py] imports and does not define.
    Section 3 of the specification reserves token ids for END, START and PAD
    that are disjoint from the character ids, and offsets the character ids
    by the reserved ones.  The layout chosen here puts END at id 0, the
    charset at ids 1..n, then START and PAD. *)
Inductive token : Type :=
| EOS
| Chr (c : ascii)
| BOS
| PAD.

(** Modelled from the spec: equality of tokens. *)
Definition token_eqb (a b : token) : bool :=
  match a, b with
  | EOS, EOS | BOS, BOS | PAD, PAD => true
  | Chr x, Chr y => Ascii.eqb x y
  | _, _ => false
  end.

(** Modelled from the spec: a tokenizer is its vocabulary, id to token. *)
Record t : Type := mk { itos : list token }.

(** Modelled from the spec: the constructor [Tokenizer(charset)]. *)
Definition make (charset : string) : t :=
  mk (EOS :: map Chr (list_ascii_of_string charset) ++ [BOS; PAD]).

(** Modelled from the spec: the reserved ids and the size of the vocabulary. *)
Definition eos_id : nat := 0.
Definition bos_id (tk : t) : nat := List.length (itos tk) - 2.
Definition pad_id (tk : t) : nat := List.length (itos tk) - 1.
Definition vocabulary_size (tk : t) : nat := List.length (itos tk).

(** Modelled from the spec: the failures of the tokenizer. *)
Definition UnknownCharacterError (c : ascii) : Exception :=
  mkExc "UnknownCharacterError" (String c EmptyString).
Definition DecodeFailure : Exception :=
  mkExc "DecodeFailure" "token outside the character range".
Definition EmptyDistribution : Exception :=
  mkExc "IndexError" "max of an empty distribution".

(** Modelled from the spec: the first position of a token in the vocabulary. *)
Fixpoint index_of (x : token) (l : list token) : option nat :=
  match l with
  | [] => None
  | y :: r => if token_eqb x y then Some 0
              else option_map S (index_of x r)
  end.

(** Modelled from the spec: character to token id. *)
Definition stoi (tk : t) (c : ascii) : result nat :=
  match index_of (Chr c) (itos tk) with
  | Some i => inr i
  | None => inl (UnknownCharacterError c)
  end.

(** Modelled from the spec: [encode(text)], each character mapped to its
    token id, failing on a character outside the charset. *)
Definition encode (tk : t) (text : string) : result (list nat) :=
  rmapM (stoi tk) (list_ascii_of_string text).

(** Modelled from the spec: greedy selection at one position, the largest
    probability and the first index that attains it. *)
Fixpoint max_from (best : Q) (besti i : nat) (l : list Q) : Q * nat :=
  match l with
  | [] => (best, besti)
  | x :: r => if Qlt_bool best x then max_from x i (S i) r
              else max_from best besti (S i) r
  end.

(** Modelled from the spec: the argmax token of one position. *)
Definition argmax (dist : Tensor1) : result (Q * nat) :=
  match dist with
  | [] => inl EmptyDistribution
  | x :: r => inr (max_from x 0 1 r)
  end.

(** Modelled from the spec: the positions consumed by decoding, everything
    up to the first END, that position included. *)
Fixpoint consume (sel : list (Q * nat)) : list (Q * nat) :=
  match sel with
  | [] => []
  | (p, i) :: r => if i =? eos_id then [(p, i)] else (p, i) :: consume r
  end.

(** Modelled from the spec: a consumed id other than END names a character
    or is padding, which stands for no character (section 4.1: an all-padding
    prediction yields the empty string); START or an id outside the
    vocabulary fails fast. *)
Definition id2char (tk : t) (i : nat) : result (option ascii) :=
  match nth_error (itos tk) i with
  | Some (Chr c) => inr (Some c)
  | Some PAD => inr None
  | _ => inl DecodeFailure
  end.

(** Modelled from the spec: the characters among the decoded tokens. *)
Fixpoint characters (l : list (option ascii)) : list ascii :=
  match l with
  | [] => []
  | Some c :: r => c :: characters r
  | None :: r => characters r
  end.

(** Modelled from the spec: token ids back to the characters of the charset. *)
Definition ids2tok (tk : t) (ids : list nat) : result string :=
  rbind (rmapM (id2char tk) ids) (fun cs =>
  inr (string_of_list_ascii (characters cs))).

(** Modelled from the spec: decoding of one batch item, the text of the
    consumed character tokens and the product of the probabilities selected at
    the consumed positions.  Section 4.1 counts the END position among the
    consumed ones, and so does this definition; section 9 calls the place of
    the END probability in the confidence an open question, and section 8
    reads the confidence off the positions before END.  Nothing below depends
    on which of the two is meant. *)
Definition decode_one (tk : t) (dists : Tensor2) : result (string * Q) :=
  rbind (rmapM argmax dists) (fun sel =>
  let used := consume sel in
  let ids := filter (fun i => negb (i =? eos_id)) (map snd used) in
  rbind (ids2tok tk ids) (fun text =>
  inr (text, Qprod (map fst used)))).

(** Modelled from the spec: [decode(probabilityTensor) -> (texts,
    confidences)], one text and one confidence per batch item. *)
Definition decode (tk : t) (token_dists : Tensor3)
  : result (list string * list Q) :=
  rbind (rmapM (decode_one tk) token_dists) (fun rs =>
  inr (map fst rs, map snd rs)).

(** Modelled from the spec: a one-hot distribution, all mass on token [i]. *)
Definition one_hot (size i : nat) : Tensor1 :=
  map (fun j => if j =? i then 1%Q else 0%Q) (seq 0 size).

End Tokenizer.

(** The charset of the solver: a raw Python string literal, so each backslash
    of the source text is a character of the charset. *)
Definition solver_charset : string :=
  "0123456789abcdefghijklmnopqrstuvwxyzABCDEFGHIJKLMNOPQRSTUVWXYZ!\"
  ++ String "034"%char "#$%&'()*+,-./:;<=>?@[\\]^_`{|}~".

(** ** Images and the torchvision transforms *)

(** The PIL image modes whose pixels are written out here: 8-bit grayscale,
    true colour, true colour with alpha.  Images in the other modes are
    [POther] objects below. *)
Inductive Mode : Type := L | RGB | RGBA.

Definition bands (m : Mode) : nat :=
  match m with
  | L => 1
  | RGB => 3
  | RGBA => 4
  end.

(** An in-memory image: [getpixel x y] lists the band values of one pixel. *)
Record Image : Type := mkImage {
  mode : Mode;
  width : nat;
  height : nat;
  getpixel : nat -> nat -> list Z
}.

(** What a caller may pass as [img].  [ImageGrab.grabclipboard()] yields an
    image or a list of file names; [PImage] is an image whose data is loaded
    and whose mode is one of the three written out above.  [POther] is any
    other image object (another PIL mode, or a file opened lazily whose data
    cannot be read), given by what the two uses the program makes of it do:
    [converted] holds the pixels of the image [img.convert('RGB')] returns, or
    the exception it raises (PIL has no conversion from mode La to RGB, and
    reading a truncated file fails); [shown] is the thumbnail [display_image]
    obtains from a copy, or the exception it meets. *)
Inductive pyobj : Type :=
| PImage (im : Image)
| PList (names : list string)
| POther (converted : result Image) (shown : result Image).

Definition band (px : list Z) (c : nat) : Z := nth c px 0%Z.

(** [Image.convert('RGB')]: gray is replicated, alpha is dropped. *)
Definition convert_RGB (im : Image) : Image :=
  {| mode := RGB;
     width := width im;
     height := height im;
     getpixel := fun x y =>
       let px := getpixel im x y in
       match mode im with
       | L => [band px 0; band px 0; band px 0]
       | RGB | RGBA => [band px 0; band px 1; band px 2]
       end |}.

Definition AttributeError (attr : string) : Exception :=
  mkExc "AttributeError" ("'list' object has no attribute '" ++ attr ++ "'").
Definition TypeError (msg : string) : Exception := mkExc "TypeError" msg.
Definition ValueError (msg : string) : Exception := mkExc "ValueError" msg.
Definition IndexError (msg : string) : Exception := mkExc "IndexError" msg.

(** [img.convert('RGB')] on whatever object [img] is. *)
Definition convert (img : pyobj) : result Image :=
  match img with
  | PImage im => inr (convert_RGB im)
  | PList _ => inl (AttributeError "convert")
  | POther converted _ => rbind converted (fun im => inr (convert_RGB im))
  end.

Inductive InterpolationMode : Type :=
| NEAREST | BILINEAR | BICUBIC | BOX | HAMMING | LANCZOS.

Inductive Transform : Type :=
| Resize (size : nat * nat) (interpolation : InterpolationMode)
| ToTensor
| Normalize (mean std : Q).

Definition Compose := list Transform.

(** What flows between the transforms of a [Compose]. *)
Inductive tvalue : Type :=
| VImage (im : Image)
| VTensor (t : Tensor3).

(** Saturation of a resampled value to the 8-bit range. *)
Definition clip8 (v : Z) : Z := Z.max 0 (Z.min 255 v).

Definition to_tensor (im : Image) : Tensor3 :=
  map (fun c =>
    map (fun y =>
      map (fun x => (inject_Z (band (getpixel im x y) c) / 255)%Q)
          (seq 0 (width im)))
      (seq 0 (height im)))
    (seq 0 (bands (mode im))).

Definition normalize (mean std : Q) (t : Tensor3) : Tensor3 :=
  map (map (map (fun v => ((v - mean) / std)%Q))) t.

Definition unsqueeze0 (t : Tensor3) : Tensor4 := [t].

(** [_to_numpy]: the tensor built by the transform does not require
    gradients; both branches hand over the same numbers. *)
Definition _to_numpy (requires_grad : bool) (tensor : Tensor4) : Tensor4 :=
  if requires_grad then tensor else tensor.

(** [_get_transform]. *)
Definition _get_transform (img_size : nat * nat) : Compose :=
  let transforms :=
    [ Resize img_size BICUBIC;
      ToTensor;
      Normalize (1#2) (1#2) ] in
  transforms.

(** A file system: the content of each existing path. *)
Definition FileSystem := string -> option string.

Definition path_exists (fs : FileSystem) (path : string) : bool :=
  match fs path with
  | Some _ => true
  | None => false
  end.

Definition FileNotFoundError (msg : string) : Exception :=
  mkExc "FileNotFoundError" msg.

Declare Scope solver_scope.
Delimit Scope solver_scope with solver.

Section Pipeline.

(** *** The libraries the solver calls *)

(** The resampling filter of the imaging library: [resample f src w h x y c]
    is the unclipped value of band [c] at pixel [(x, y)] when [src] is
    resampled to [w] by [h] with filter [f]. *)
Variable resample :
  InterpolationMode -> Image -> nat -> nat -> nat -> nat -> nat -> Z.

(** The exponential used by softmax. *)
Variable exp : Q -> Q.

(** The inference runtime: a session, the names of its inputs, and a run
    that may update the session and raise. *)
Variable Session : Type.
Variable get_inputs : Session -> list string.
Variable ort_run :
  Session -> list (string * Tensor4) -> Session * result (list Tensor3).

(** The model format library and the session constructor, on the bytes of
    the artifact. *)
Variable ModelProto : Type.
Variable onnx_parse : string -> result ModelProto.
Variable check_model : ModelProto -> result unit.
Variable session_of_bytes : string -> result Session.

(** *** The transform *)

Definition resize (size : nat * nat) (interpolation : InterpolationMode)
           (im : Image) : Image :=
  let (h, w) := size in
  {| mode := mode im;
     width := w;
     height := h;
     getpixel := fun x y =>
       map (fun c => clip8 (resample interpolation im w h x y c))
           (seq 0 (bands (mode im))) |}.

(** One transform applied to an image or a tensor.  The solver resizes
    images only; a tensor reaching [Resize] is outside this model. *)
Definition apply_transform (tr : Transform) (v : tvalue) : result tvalue :=
  match tr, v with
  | Resize size interpolation, VImage im =>
      inr (VImage (resize size interpolation im))
  | Resize _ _, VTensor _ =>
      inl (TypeError "resize of a tensor")
  | ToTensor, VImage im => inr (VTensor (to_tensor im))
  | ToTensor, VTensor _ =>
      inl (TypeError "pic should be PIL Image or ndarray")
  | Normalize mean std, VTensor t =>
      if Qeq_bool std 0 then inl (ValueError "std evaluated to zero")
      else inr (VTensor (normalize mean std t))
  | Normalize _ _, VImage _ =>
      inl (TypeError "img should be Tensor Image")
  end.

Fixpoint apply_compose (ts : Compose) (v : tvalue) : result tvalue :=
  match ts with
  | [] => inr v
  | tr :: rest => rbind (apply_transform tr v) (apply_compose rest)
  end.

(** *** Softmax along the last axis *)

Definition softmax (row : Tensor1) : Tensor1 :=
  let es := map exp row in
  let z := Qsum es in
  map (fun e => (e / z)%Q) es.

Definition softmax_last (logits : Tensor3) : Tensor3 :=
  map (map softmax) logits.

(** *** The solver object *)

Record SimpleCaptchaSolver : Type := mkSolver {
  model_file : string;
  img_size : nat * nat;
  charset : string;
  tokenizer : Tokenizer.t;
  transform : Compose;
  ort_session : Session
}.

(** [onnx.load(path)] and [rt.InferenceSession(path)] read the artifact. *)
Definition onnx_load (fs : FileSystem) (path : string) : result ModelProto :=
  match fs path with
  | Some bytes => onnx_parse bytes
  | None => inl (FileNotFoundError path)
  end.

Definition InferenceSession (fs : FileSystem) (path : string)
  : result Session :=
  match fs path with
  | Some bytes => session_of_bytes bytes
  | None => inl (FileNotFoundError path)
  end.

(** [_initialize_model], on the attributes [__init__] has set so far. *)
Definition _initialize_model (fs : FileSystem) (model_file : string)
           (img_size : nat * nat) : result (Compose * Session) :=
  let transform := _get_transform img_size in
  rbind (onnx_load fs model_file) (fun onnx_model =>
  rbind (check_model onnx_model) (fun _ =>
  rbind (InferenceSession fs model_file) (fun ort_session =>
  inr (transform, ort_session)))).

(** [SimpleCaptchaSolver.__init__]: the constructed solver, or the raised
    exception. *)
Definition __init__ (fs : FileSystem) : result SimpleCaptchaSolver :=
  let model_file := "captcha.onnx" in
  let img_size := (32, 128) in
  let charset := solver_charset in
  if negb (path_exists fs model_file) then
    inl (FileNotFoundError ("Model file '" ++ model_file ++ "' not found!"))
  else
    let tokenizer := Tokenizer.make charset in
    rbind (_initialize_model fs model_file img_size) (fun '(transform, ort_session) =>
    inr (mkSolver model_file img_size charset tokenizer transform ort_session)).

(** *** Effects of a solve call *)

(** What a method call can change: the solver object (its session) and
    what was printed so far, one entry per call of [print] (an entry may hold
    several lines). *)
Record State : Type := mkState {
  self : SimpleCaptchaSolver;
  stdout : list string
}.

Definition M (A : Type) : Type := State -> State * result A.

Definition ret {A} (a : A) : M A := fun st => (st, inr a).

Definition bind {A B} (c : M A) (k : A -> M B) : M B :=
  fun st =>
    match c st with
    | (st', inl e) => (st', inl e)
    | (st', inr a) => k a st'
    end.

Notation "x <- c ;; k" := (bind c (fun x => k))
  (at level 61, c at next level, right associativity) : solver_scope.
Notation "c ;; k" := (bind c (fun _ => k))
  (at level 61, right associativity) : solver_scope.
Local Open Scope solver_scope.

Definition lift {A} (r : result A) : M A := fun st => (st, r).

Definition get_self : M SimpleCaptchaSolver := fun st => (st, inr (self st)).

(** [print(text)]; writing to the standard output is taken not to raise. *)
Definition print (text : string) : M unit :=
  fun st => (mkState (self st) (stdout st ++ [text]), inr tt).

(** [try: c except Exception as e: h e]; what [c] did before raising
    stays done. *)
Definition try_except {A} (c : M A) (h : Exception -> M A) : M A :=
  fun st =>
    match c st with
    | (st', inl e) => h e st'
    | (st', inr a) => (st', inr a)
    end.

Definition set_session (s : Session) (st : State) : State :=
  let o := self st in
  mkState (mkSolver (model_file o) (img_size o) (charset o) (tokenizer o)
                    (transform o) s)
          (stdout st).

(** [self.ort_session.run(None, {get_inputs()[0].name: _to_numpy(x)})[0]]. *)
Definition session_run (x : Tensor4) : M Tensor3 :=
  fun st =>
    let s := ort_session (self st) in
    match get_inputs s with
    | [] => (st, inl (IndexError "list index out of range"))
    | name :: _ =>
        let ort_inputs := [(name, _to_numpy false x)] in
        let (s', outs) := ort_run s ort_inputs in
        let st' := set_session s' st in
        match outs with
        | inl e => (st', inl e)
        | inr [] => (st', inl (IndexError "list index out of range"))
        | inr (logits :: _) => (st', inr logits)
        end
    end.

(** [self.transform(img.convert('RGB')).unsqueeze(0)]. *)
Definition preprocess (tf : Compose) (img : pyobj) : result Tensor4 :=
  rbind (convert img) (fun rgb =>
  rbind (apply_compose tf (VImage rgb)) (fun v =>
  match v with
  | VTensor t => inr (unsqueeze0 t)
  | VImage _ => inl (mkExc "AttributeError"
                       "'Image' object has no attribute 'unsqueeze'")
  end)).

(** Lines 74 to 77: softmax over the last axis, then [Tokenizer.decode]. *)
Definition decode_logits (tk : Tokenizer.t) (logits : Tensor3)
  : M (list string * list Q) :=
  let probs := softmax_last logits in
  lift (Tokenizer.decode tk probs).

Definition first_pred (preds : list string) : result string :=
  match preds with
  | [] => inl (IndexError "list index out of range")
  | r :: _ => inr r
  end.

(** The body of the [try] block of [solve_captcha]. *)
Definition solve_captcha_try (img : pyobj) : M pyval :=
  o <- get_self ;;
  x <- lift (preprocess (transform o) img) ;;
  logits <- session_run x ;;
  dec <- decode_logits (tokenizer o) logits ;;
  result <- lift (first_pred (fst dec)) ;;
  print ("CAPTCHA solved: " ++ result) ;;
  ret (PyStr result).

(** [solve_captcha]. *)
Definition solve_captcha (img : pyobj) : M pyval :=
  try_except (solve_captcha_try img)
    (fun e =>
       print ("Error solving CAPTCHA: " ++ exc_msg e) ;;
       ret PyNone).

(** *** The GUI around the solver *)

(** Python's rendering of a float inside an f-string. *)
Variable float_str : Q -> string.

Definition py_str (v : pyval) : string :=
  match v with
  | PyNone => "None"
  | PyStr s => s
  | PyPair text confidence =>
      "('" ++ text ++ "', " ++ float_str confidence ++ ")"
  end.

Definition nl : string := String "010"%char EmptyString.
Definition mark_ok : string := "‚úÖ".
Definition mark_fail : string := "‚ùå".

Inductive ButtonState : Type := normal | disabled.

Inductive Dialog : Type :=
| showinfo (title message : string)
| showwarning (title message : string)
| showerror (title message : string).

(** The widgets and variables the result handling touches, the message boxes
    shown so far and the number of bells rung.  The field [pyperclip] is the
    text of the last [pyperclip.copy] of the program that returned (at startup,
    the text found on the clipboard).  It is a record of the program's own
    copies, not the system clipboard: what the user puts there between two
    callbacks, and which [ImageGrab.grabclipboard] reads, reaches the methods
    as an argument. *)
Record GUI : Type := mkGUI {
  solver : option SimpleCaptchaSolver;
  solver_ready : bool;
  clipboard_btn : ButtonState;
  monitor_btn : ButtonState;
  file_btn : ButtonState;
  screen_btn : ButtonState;
  copy_btn : ButtonState;
  solution_var : string;
  status_var : string;
  pyperclip : string;
  dialogs : list Dialog;
  bells : nat
}.

Definition set_solution_var (v : string) (g : GUI) : GUI :=
  mkGUI (solver g) (solver_ready g) (clipboard_btn g) (monitor_btn g)
        (file_btn g) (screen_btn g) (copy_btn g) v (status_var g)
        (pyperclip g) (dialogs g) (bells g).

Definition set_copy_btn (b : ButtonState) (g : GUI) : GUI :=
  mkGUI (solver g) (solver_ready g) (clipboard_btn g) (monitor_btn g)
        (file_btn g) (screen_btn g) b (solution_var g) (status_var g)
        (pyperclip g) (dialogs g) (bells g).

Definition set_status_var (v : string) (g : GUI) : GUI :=
  mkGUI (solver g) (solver_ready g) (clipboard_btn g) (monitor_btn g)
        (file_btn g) (screen_btn g) (copy_btn g) (solution_var g) v
        (pyperclip g) (dialogs g) (bells g).

(** [pyperclip.copy(text)] when it returns; the call sites decide what
    happens when it raises. *)
Definition pyperclip_copy (text : string) (g : GUI) : GUI :=
  mkGUI (solver g) (solver_ready g) (clipboard_btn g) (monitor_btn g)
        (file_btn g) (screen_btn g) (copy_btn g) (solution_var g)
        (status_var g) text (dialogs g) (bells g).

Definition messagebox (d : Dialog) (g : GUI) : GUI :=
  mkGUI (solver g) (solver_ready g) (clipboard_btn g) (monitor_btn g)
        (file_btn g) (screen_btn g) (copy_btn g) (solution_var g)
        (status_var g) (pyperclip g) (dialogs g ++ [d]) (bells g).

Definition bell (g : GUI) : GUI :=
  mkGUI (solver g) (solver_ready g) (clipboard_btn g) (monitor_btn g)
        (file_btn g) (screen_btn g) (copy_btn g) (solution_var g)
        (status_var g) (pyperclip g) (dialogs g) (S (bells g)).

(** [SimpleCaptchaGUI.__init__] with [setup_ui]: the solver is built inside
    a [try]; on failure the four method buttons are disabled.  [clip] is
    the text clipboard found at startup. *)
Definition gui__init__ (fs : FileSystem) (clip : string) : GUI :=
  let methods (ready : bool) := if ready then normal else disabled in
  match __init__ fs with
  | inr s =>
      mkGUI (Some s) true (methods true) (methods true) (methods true)
            (methods true) disabled "No solution yet"
            "Ready - Choose a method above" clip [] 0
  | inl e =>
      mkGUI None false (methods false) (methods false) (methods false)
            (methods false) disabled "No solution yet"
            "Ready - Choose a method above" clip
            [showerror "Error"
               ("Failed to initialize CAPTCHA solver:" ++ nl ++ exc_msg e)]
            0
  end.

(** [solve_from_clipboard], lines 246 to 258: what is done with the value
    [solve_captcha] returned, [pyperclip.copy] returning. *)
Definition solve_from_clipboard_result (solution : pyval) (g : GUI) : GUI :=
  if truthy solution then
    let g := set_solution_var (py_str solution) g in
    let g := set_copy_btn normal g in
    let g := set_status_var (mark_ok ++ " Solved: " ++ py_str solution) g in
    let g := pyperclip_copy (py_str solution) g in
    messagebox
      (showinfo "Success!"
         ("CAPTCHA Solved: " ++ py_str solution ++ nl ++ nl ++
          mark_ok ++ " Solution copied to clipboard automatically!")) g
  else
    let g := set_status_var (mark_fail ++ " Could not solve CAPTCHA") g in
    messagebox (showerror "Error" "Could not solve this CAPTCHA") g.

(** [auto_solve_clipboard], lines 314 to 324, [pyperclip.copy] returning:
    there is no [else]. *)
Definition auto_solve_clipboard_result (solution : pyval) (g : GUI) : GUI :=
  if truthy solution then
    let g := set_solution_var (py_str solution) g in
    let g := set_copy_btn normal g in
    let g := pyperclip_copy (py_str solution) g in
    let g := set_status_var (mark_ok ++ " Auto-solved: " ++ py_str solution) g in
    let g := bell g in
    messagebox
      (showinfo "Auto-Solved!"
         ("CAPTCHA: " ++ py_str solution ++ nl ++ nl ++
          mark_ok ++ " Solution copied to clipboard!")) g
  else g.

(** [load_image_file], lines 353 to 361, [pyperclip.copy] returning. *)
Definition load_image_file_result (solution : pyval) (g : GUI) : GUI :=
  if truthy solution then
    let g := set_solution_var (py_str solution) g in
    let g := set_copy_btn normal g in
    let g := pyperclip_copy (py_str solution) g in
    let g := set_status_var (mark_ok ++ " Solved: " ++ py_str solution) g in
    messagebox (showinfo "Success!" ("CAPTCHA Solved: " ++ py_str solution)) g
  else
    let g := set_status_var (mark_fail ++ " Could not solve image") g in
    messagebox (showerror "Error" "Could not solve this image") g.

(** [end_selection] of the screen capture, lines 448 to 456,
    [pyperclip.copy] returning. *)
Definition end_selection_result (solution : pyval) (g : GUI) : GUI :=
  if truthy solution then
    let g := set_solution_var (py_str solution) g in
    let g := set_copy_btn normal g in
    let g := pyperclip_copy (py_str solution) g in
    let g := set_status_var (mark_ok ++ " Solved: " ++ py_str solution) g in
    messagebox (showinfo "Success!" ("CAPTCHA Solved: " ++ py_str solution)) g
  else
    let g := set_status_var (mark_fail ++ " Could not solve selected region") g in
    messagebox (showerror "Error" "Could not solve selected region") g.

(** *** The application around the result handling *)

(** Library calls of the GUI methods: the thumbnail shown by the label,
    [Image.open] (the object it returns, whose data may be read later),
    [Image.crop] and Python's [==] on what the clipboard held.  [copy_fault]
    is the exception [pyperclip.copy] raises, if it raises (no clipboard
    mechanism on the machine, for one). *)
Variable copy_fault : option Exception.
Variable thumbnail : Image -> nat * nat -> Image.
Variable image_open : FileSystem -> string -> result pyobj.
Variable crop : Image -> Z * Z * Z * Z -> Image.
Variable py_eqb : pyobj -> pyobj -> bool.

Definition mark_stop : string := "‚èπÔ∏è".
Definition mark_cycle : string := "üîÑ".
Definition mark_rocket : string := "üöÄ".

(** The state of a running [SimpleCaptchaGUI]: the widgets of [GUI], the
    text printed so far, the image kept and shown, the monitor controls, and
    the main window. *)
Record App : Type := mkApp {
  gui : GUI;
  console : list string;
  current_image : option pyobj;
  image_label : option Image;
  monitoring : bool;
  monitor_btn_text : string;
  monitor_status : string;
  monitor_threads : nat;
  root_visible : bool;
  root_alive : bool
}.

Definition on_gui (f : GUI -> GUI) (a : App) : App :=
  mkApp (f (gui a)) (console a) (current_image a) (image_label a)
        (monitoring a) (monitor_btn_text a) (monitor_status a)
        (monitor_threads a) (root_visible a) (root_alive a).

Definition set_console (out : list string) (a : App) : App :=
  mkApp (gui a) out (current_image a) (image_label a)
        (monitoring a) (monitor_btn_text a) (monitor_status a)
        (monitor_threads a) (root_visible a) (root_alive a).

Definition app_print (text : string) (a : App) : App :=
  set_console (console a ++ [text]) a.

Definition set_shown (img : pyobj) (photo : Image) (a : App) : App :=
  mkApp (gui a) (console a) (Some img) (Some photo)
        (monitoring a) (monitor_btn_text a) (monitor_status a)
        (monitor_threads a) (root_visible a) (root_alive a).

Definition set_monitor (on : bool) (btn status : string) (threads : nat)
           (a : App) : App :=
  mkApp (gui a) (console a) (current_image a) (image_label a)
        on btn status threads (root_visible a) (root_alive a).

Definition set_root (visible alive : bool) (a : App) : App :=
  mkApp (gui a) (console a) (current_image a) (image_label a)
        (monitoring a) (monitor_btn_text a) (monitor_status a)
        (monitor_threads a) visible alive.

Definition set_solver (o : option SimpleCaptchaSolver) (g : GUI) : GUI :=
  mkGUI o (solver_ready g) (clipboard_btn g) (monitor_btn g)
        (file_btn g) (screen_btn g) (copy_btn g) (solution_var g)
        (status_var g) (pyperclip g) (dialogs g) (bells g).

(** [display_image]: an image is shown as a thumbnail and kept as the current
    image; what raises inside the [try] (a list has no [thumbnail], the data
    of a file cannot be read) is only printed. *)
Definition display_image (img : pyobj) (a : App) : App :=
  match img with
  | PImage im =>
      let display_size := (400, 120) in
      set_shown img (thumbnail im display_size) a
  | PList _ =>
      app_print ("Display error: " ++ exc_msg (AttributeError "thumbnail")) a
  | POther _ (inr photo) => set_shown img photo a
  | POther _ (inl e) => app_print ("Display error: " ++ exc_msg e) a
  end.

(** [self.solver.solve_captcha(img)] from a GUI method: the attribute
    [solver] is missing when construction failed. *)
Definition solver_call (img : pyobj) (a : App) : App * result pyval :=
  match solver (gui a) with
  | None =>
      (a, inl (mkExc "AttributeError"
                 "'SimpleCaptchaGUI' object has no attribute 'solver'"))
  | Some o =>
      let (st, r) := solve_captcha img (mkState o (console a)) in
      (set_console (stdout st) (on_gui (set_solver (Some (self st))) a), r)
  end.

(** [solve_from_clipboard]; [grabbed] is what [ImageGrab.grabclipboard()]
    returned or raised. *)
Definition solve_from_clipboard (grabbed : result (option pyobj)) (a : App)
  : App :=
  let except (e : Exception) (a : App) :=
    let a := on_gui (set_status_var (mark_fail ++ " Error: " ++ exc_msg e)) a in
    on_gui (messagebox (showerror "Error"
              ("Error processing clipboard: " ++ exc_msg e))) a in
  let a := on_gui (set_status_var "Checking clipboard for image...") a in
  match grabbed with
  | inl e => except e a
  | inr None =>
      let a := on_gui (messagebox (showwarning "No Image"
                 ("No image found in clipboard!" ++ nl ++ nl ++
                  "Steps:" ++ nl ++
                  "1. Right-click on CAPTCHA image" ++ nl ++
                  "2. Select 'Copy Image'" ++ nl ++
                  "3. Click this button again"))) a in
      on_gui (set_status_var "No image in clipboard") a
  | inr (Some img) =>
      let a := display_image img a in
      let a := on_gui (set_status_var "Solving CAPTCHA...") a in
      match solver_call img a with
      | (a, inl e) => except e a
      | (a, inr solution) =>
          match (if truthy solution then copy_fault else None) with
          | Some e =>
              let a := on_gui (set_solution_var (py_str solution)) a in
              let a := on_gui (set_copy_btn normal) a in
              let a := on_gui (set_status_var
                                 (mark_ok ++ " Solved: " ++ py_str solution)) a in
              except e a
          | None => on_gui (solve_from_clipboard_result solution) a
          end
      end
  end.

(** [auto_solve_clipboard]. *)
Definition auto_solve_clipboard (img : pyobj) (a : App) : App :=
  let except (e : Exception) (a : App) :=
    on_gui (set_status_var (mark_fail ++ " Auto-solve error: " ++ exc_msg e)) a in
  let a := display_image img a in
  match solver_call img a with
  | (a, inl e) => except e a
  | (a, inr solution) =>
      match (if truthy solution then copy_fault else None) with
      | Some e =>
          let a := on_gui (set_solution_var (py_str solution)) a in
          let a := on_gui (set_copy_btn normal) a in
          except e a
      | None => on_gui (auto_solve_clipboard_result solution) a
      end
  end.

(** [load_image_file]; [file_path] is what the file dialog returned, the
    empty string when it was cancelled. *)
Definition load_image_file (fs : FileSystem) (file_path : string) (a : App)
  : App :=
  let except (e : Exception) (a : App) :=
    on_gui (messagebox (showerror "Error"
              ("Error loading image: " ++ exc_msg e))) a in
  if String.eqb file_path "" then a
  else
    match image_open fs file_path with
    | inl e => except e a
    | inr img =>
        let a := display_image img a in
        let a := on_gui (set_status_var "Solving loaded image...") a in
        match solver_call img a with
        | (a, inl e) => except e a
        | (a, inr solution) =>
            match (if truthy solution then copy_fault else None) with
            | Some e =>
                let a := on_gui (set_solution_var (py_str solution)) a in
                let a := on_gui (set_copy_btn normal) a in
                except e a
            | None => on_gui (load_image_file_result solution) a
            end
        end
    end.

(** [copy_solution]; the method has no [try]. *)
Definition copy_solution (g : GUI) : result GUI :=
  let solution := solution_var g in
  if negb (String.eqb solution "")
     && negb (String.eqb solution "No solution yet")
  then
    match copy_fault with
    | Some e => inl e
    | None =>
        let g := pyperclip_copy solution g in
        inr (messagebox (showinfo "Copied!"
                           ("Solution '" ++ solution ++ "' copied to clipboard!")) g)
    end
  else inr g.

(** [start_monitoring], [stop_monitoring], [toggle_monitoring]: the flag, the
    button, the two status texts, and one more monitor thread per start. *)
Definition start_monitoring (a : App) : App :=
  let a := set_monitor true (mark_stop ++ " Stop Auto-Monitor")
                       (mark_cycle ++ " Monitoring active")
                       (S (monitor_threads a)) a in
  on_gui (set_status_var
            (mark_cycle ++ " Auto-monitoring started - copy any CAPTCHA!")) a.

Definition stop_monitoring (a : App) : App :=
  let a := set_monitor false (mark_cycle ++ " Start Auto-Monitor")
                       "Not monitoring" (monitor_threads a) a in
  on_gui (set_status_var (mark_stop ++ " Auto-monitoring stopped")) a.

Definition toggle_monitoring (a : App) : App :=
  if negb (monitoring a) then start_monitoring a else stop_monitoring a.

(** [on_closing]. *)
Definition on_closing (a : App) : App :=
  set_root (root_visible a) false (stop_monitoring a).

(** *** The monitor loop *)

(** One look at the clipboard by the monitor thread. *)
Inductive observation : Type :=
| Grabbed (content : option pyobj)
| GrabFailed (e : Exception).

(** The variables of [monitor_loop]: the last image detected, the images for
    which a solve was scheduled (oldest first), the seconds slept and the
    texts printed, one per call of [print]. *)
Record Monitor : Type := mkMonitor {
  last_clipboard : option pyobj;
  scheduled : list pyobj;
  slept : nat;
  monitor_out : list string
}.

(** [current_clipboard != last_clipboard]. *)
Definition differs (current : pyobj) (last : option pyobj) : bool :=
  match last with
  | None => true
  | Some l => negb (py_eqb current l)
  end.

(** One turn of the [while self.monitoring] loop. *)
Definition monitor_turn (m : Monitor) (obs : observation) : Monitor :=
  match obs with
  | Grabbed (Some current_clipboard) =>
      if differs current_clipboard (last_clipboard m) then
        mkMonitor (Some current_clipboard)
                  (scheduled m ++ [current_clipboard])
                  (slept m + 1) (monitor_out m)
      else mkMonitor (last_clipboard m) (scheduled m) (slept m + 1)
                     (monitor_out m)
  | Grabbed None =>
      mkMonitor (last_clipboard m) (scheduled m) (slept m + 1) (monitor_out m)
  | GrabFailed e =>
      mkMonitor (last_clipboard m) (scheduled m) (slept m + 2)
                (monitor_out m ++ ["Monitor error: " ++ exc_msg e])
  end.

(** [monitor_loop] over the observations made while the flag was set. *)
Definition monitor_loop (observations : list observation) : Monitor :=
  fold_left monitor_turn observations (mkMonitor None [] 0 []).

(** *** Selection of a screen region *)

(** The dict [selection_coords]: keys to integers, the newest binding of a
    key first and alone. *)
Definition dict := list (string * Z).

Fixpoint dict_get (k : string) (d : dict) : option Z :=
  match d with
  | [] => None
  | (k', v) :: r => if String.eqb k k' then Some v else dict_get k r
  end.

Definition dict_mem (k : string) (d : dict) : bool :=
  match dict_get k d with
  | Some _ => true
  | None => false
  end.

Definition dict_set (k : string) (v : Z) (d : dict) : dict :=
  (k, v) :: filter (fun kv => negb (String.eqb k (fst kv))) d.

Definition KeyError (k : string) : Exception :=
  mkExc "KeyError" ("'" ++ k ++ "'").

(** [d[k]]. *)
Definition dict_item (k : string) (d : dict) : result Z :=
  match dict_get k d with
  | Some v => inr v
  | None => inl (KeyError k)
  end.

Definition Box : Type := (Z * Z * Z * Z)%type.

(** The overlay: the dict, the rectangles of the canvas (item ids count from
    one) and whether the window still exists. *)
Record Selection : Type := mkSelection {
  selection_coords : dict;
  canvas : list Box;
  window_open : bool
}.

Fixpoint replace_nth (n : nat) (b : Box) (l : list Box) : list Box :=
  match l, n with
  | [], _ => []
  | _ :: r, O => b :: r
  | x :: r, S m => x :: replace_nth m b r
  end.

(** [canvas.coords(item, ...)]. *)
Definition canvas_coords (item : Z) (b : Box) (c : list Box) : list Box :=
  if (1 <=? item)%Z then replace_nth (Z.to_nat item - 1) b c else c.

(** [start_selection]. *)
Definition start_selection (x y : Z) (s : Selection) : Selection :=
  let d := dict_set "start_x" x (selection_coords s) in
  let d := dict_set "start_y" y d in
  let c := (canvas s ++ [(x, y, x, y)])%list in
  let d := dict_set "rect" (Z.of_nat (List.length c)) d in
  mkSelection d c (window_open s).

(** [update_selection]. *)
Definition update_selection (x y : Z) (s : Selection) : result Selection :=
  let d := selection_coords s in
  if dict_mem "rect" d then
    rbind (dict_item "rect" d) (fun rect =>
    rbind (dict_item "start_x" d) (fun sx =>
    rbind (dict_item "start_y" d) (fun sy =>
    inr (mkSelection d (canvas_coords rect (sx, sy, x, y) (canvas s))
                     (window_open s)))))
  else inr s.

(** What a button release leads to. *)
Inductive released : Type :=
| NoRectangle
| TooSmall
| Region (box : Box).

(** Lines 424 to 431 of [end_selection]: the corners put in order. *)
Definition ordered_box (x1 y1 x2 y2 : Z) : Box :=
  let '(x1, x2) := if (x1 >? x2)%Z then (x2, x1) else (x1, x2) in
  let '(y1, y2) := if (y1 >? y2)%Z then (y2, y1) else (y1, y2) in
  (x1, y1, x2, y2).

(** [end_selection] up to the decision to crop. *)
Definition end_selection_box (x y : Z) (s : Selection)
  : result (Selection * released) :=
  let d := selection_coords s in
  if dict_mem "rect" d then
    rbind (dict_item "start_x" d) (fun sx =>
    rbind (dict_item "start_y" d) (fun sy =>
    let '(x1, y1, x2, y2) := ordered_box sx sy x y in
    let s := mkSelection d (canvas s) false in
    if ((Z.abs (x2 - x1) >? 10) && (Z.abs (y2 - y1) >? 10))%Z
    then inr (s, Region (x1, y1, x2, y2))
    else inr (s, TooSmall)))
  else inr (s, NoRectangle).

(** [end_selection]: the main window is restored, the region is cropped from
    the screenshot, shown and solved.  This handler has no [try]: what
    [pyperclip.copy] raises on a true solution leaves the handler, after the
    solution was displayed and before the status line and the box. *)
Definition end_selection (screenshot : Image) (x y : Z) (s : Selection)
           (a : App) : result (Selection * App) :=
  rbind (end_selection_box x y s) (fun '(s, outcome) =>
  match outcome with
  | NoRectangle => inr (s, a)
  | TooSmall =>
      let a := set_root true (root_alive a) a in
      inr (s, on_gui (set_status_var "Selection too small") a)
  | Region box =>
      let a := set_root true (root_alive a) a in
      let cropped := PImage (crop screenshot box) in
      let a := display_image cropped a in
      let a := on_gui (set_status_var "Solving selected region...") a in
      match solver_call cropped a with
      | (a, inl e) => inl e
      | (a, inr solution) =>
          match (if truthy solution then copy_fault else None) with
          | Some e => inl e
          | None => inr (s, on_gui (end_selection_result solution) a)
          end
      end
  end).

(** [cancel_selection]. *)
Definition cancel_selection (s : Selection) (a : App) : Selection * App :=
  (mkSelection (selection_coords s) (canvas s) false,
   on_gui (set_status_var "Selection cancelled")
          (set_root true (root_alive a) a)).

(** [capture_screen_region] with [start_screen_selection]; [shot] is what
    [ImageGrab.grab()] returned or raised. *)
Definition capture_screen_region (shot : result Image) (a : App)
  : App * option (Image * Selection) :=
  let a := on_gui (messagebox (showinfo "Screen Capture"
             ("Instructions:" ++ nl ++ nl ++
              "1. Click OK to start" ++ nl ++
              "2. This window will minimize" ++ nl ++
              "3. Click and drag to select CAPTCHA area" ++ nl ++
              "4. Window will restore automatically"))) a in
  let a := set_root false (root_alive a) a in
  match shot with
  | inr screenshot => (a, Some (screenshot, mkSelection [] [] true))
  | inl e =>
      let a := set_root true (root_alive a) a in
      (on_gui (messagebox (showerror "Error"
                 ("Screen capture failed: " ++ exc_msg e))) a, None)
  end.

(** The events bound on the overlay. *)
Inductive mouse_event : Type :=
| Press (x y : Z)
| Motion (x y : Z)
| Release (x y : Z)
| Escape.

Definition handle_event (screenshot : Image) (ev : mouse_event)
           (sa : Selection * App) : result (Selection * App) :=
  let (s, a) := sa in
  match ev with
  | Press x y => inr (start_selection x y s, a)
  | Motion x y => rbind (update_selection x y s) (fun s => inr (s, a))
  | Release x y => end_selection screenshot x y s a
  | Escape => inr (cancel_selection s a)
  end.

(** Events reach the handlers as long as the overlay exists. *)
Fixpoint run_events (screenshot : Image) (evs : list mouse_event)
         (sa : Selection * App) : result (Selection * App) :=
  match evs with
  | [] => inr sa
  | ev :: rest =>
      if window_open (fst sa) then
        rbind (handle_event screenshot ev sa) (run_events screenshot rest)
      else inr sa
  end.

(** *** Start of the program *)

(** [SimpleCaptchaGUI.__init__] as a whole, after text was printed. *)
Definition app__init__ (fs : FileSystem) (clip : string)
           (printed : list string) : App :=
  mkApp (gui__init__ fs clip) printed None None false
        (String "031"%char "504 Start Auto-Monitor") "Not monitoring" 0
        true true.

Definition required_files : list string :=
  ["captcha.onnx"; "tokenizer_base.py"].

Inductive main_outcome : Type :=
| Exited (printed : list string)
| Running (app : App).

(** [main]; [root] is what creating the main window returned or raised, and
    the prompt of [input] counts as printed. *)
Definition main (fs : FileSystem) (clip : string) (root : result unit)
  : main_outcome :=
  let missing_files :=
    filter (fun f => negb (path_exists fs f)) required_files in
  match missing_files with
  | _ :: _ =>
      Exited [mark_fail ++ " Missing required files: "
                ++ String.concat ", " missing_files;
              "Please ensure these files are in the same directory as this script.";
              "Press Enter to exit..."]
  | [] =>
      let printed := [mark_rocket ++ " Starting Simple CAPTCHA Solver GUI..."] in
      match root with
      | inr _ => Running (app__init__ fs clip printed)
      | inl e =>
          Exited (List.app printed
                    [mark_fail ++ " Error starting application: " ++ exc_msg e;
                     "Press Enter to exit..."])
      end
  end.

(** *** The four callers, by name *)

Inductive caller : Type :=
| FromClipboard
| FromMonitor
| FromFile
| FromScreen.

(** What the caller does with the value of [solve_captcha]. *)
Definition handle_result (c : caller) (solution : pyval) (g : GUI) : GUI :=
  match c with
  | FromClipboard => solve_from_clipboard_result solution g
  | FromMonitor => auto_solve_clipboard_result solution g
  | FromFile => load_image_file_result solution g
  | FromScreen => end_selection_result solution g
  end.

(** The failed or successful solves that follow one another, caller by
    caller. *)
Definition after_results (rs : list (caller * pyval)) (g : GUI) : GUI :=
  fold_left (fun g r => handle_result (fst r) (snd r) g) rs g.

(** What the monitor loop keeps about the images: the last one detected is
    the last one scheduled, and each scheduled image differed from the one
    before. *)
Definition chained (m : Monitor) : Prop :=
  last_clipboard m
  = nth_error (scheduled m) (List.length (scheduled m) - 1) /\
  (scheduled m = [] -> last_clipboard m = None) /\
  forall i a b,
    nth_error (scheduled m) i = Some a ->
    nth_error (scheduled m) (S i) = Some b ->
    py_eqb b a = false.

(** What the overlay handlers keep: a rectangle in the dict comes with the
    press point, a solver is held, and the main window is back once the
    overlay is gone. *)
Definition overlay_ok (sa : Selection * App) : Prop :=
  (dict_mem "rect" (selection_coords (fst sa)) = true ->
   exists sx sy,
     dict_get "start_x" (selection_coords (fst sa)) = Some sx /\
     dict_get "start_y" (selection_coords (fst sa)) = Some sy) /\
  solver (gui (snd sa)) <> None /\
  (window_open (fst sa) = false -> root_visible (snd sa) = true).

End Pipeline.

Arguments mkSolver {Session}.
Arguments mkState {Session}.
Arguments mkGUI {Session}.

Arguments mkApp {Session}.

(** A look at the clipboard that found an image or a list of files. *)
Definition holds_content (obs : observation) : bool :=
  match obs with
  | Grabbed (Some _) => true
  | _ => false
  end.

(** The tensor value of a pixel byte under [ToTensor] and
    [Normalize(0.5, 0.5)]. *)
Definition normalized (p : Z) : Q := ((inject_Z p / 255 - (1#2)) / (1#2))%Q.

(** ** Declarative reading of greedy decoding *)

(** [is_argmax d p i]: [p] is the largest entry of [d] and [i] is the first
    index that holds it. *)
Definition is_argmax (d : Tensor1) (p : Q) (i : nat) : Prop :=
  nth_error d i = Some p /\
  (forall j q, nth_error d j = Some q -> (q <= p)%Q) /\
  (forall j q, j < i -> nth_error d j = Some q -> (q < p)%Q).

(** [first_end ids n]: no END among the first [n] ids, and position [n] is
    either the first END or the end of the sequence. *)
Definition first_end (ids : list nat) (n : nat) : Prop :=
  n <= List.length ids /\
  (forall k i, k < n -> nth_error ids k = Some i -> i <> Tokenizer.eos_id) /\
  (n < List.length ids -> nth_error ids n = Some Tokenizer.eos_id).

(** One batch item decodes to [text] with confidence [conf]: greedy selection
    [sel] at every position, [n] positions before the first END, the
    characters [cs] of those positions, and the probabilities of the first
    [n + 1] positions multiplied. *)
Definition decodes_to (tk : Tokenizer.t) (dists : Tensor2)
           (text : string) (conf : Q) : Prop :=
  exists sel n cs,
    Forall2 (fun d pi => is_argmax d (fst pi) (snd pi)) dists sel /\
    first_end (map snd sel) n /\
    Forall2 (fun i c => nth_error (Tokenizer.itos tk) i = Some (Tokenizer.Chr c))
            (firstn n (map snd sel)) cs /\
    text = string_of_list_ascii cs /\
    conf = Qprod (map fst (firstn (S n) sel)).

(** Shape of a tensor with three axes. *)
Definition has_shape (c h w : nat) (t : Tensor3) : Prop :=
  List.length t = c /\
  Forall (fun plane =>
            List.length plane = h /\
            Forall (fun row : Tensor1 => List.length row = w) plane) t.

(** A distribution with full support: positive entries that add up to one. *)
Definition is_distribution (row : Tensor1) : Prop :=
  Forall (fun p => (0 < p)%Q) row /\ (Qsum row == 1)%Q.

(** ** A small concrete runtime, used to run the definitions *)

Module Demo.

(** Nearest-neighbour sampling stands in for the filter. *)
Definition resample (f : InterpolationMode) (src : Image)
           (w h x y c : nat) : Z :=
  band (getpixel src (x * width src / w) (y * height src / h)) c.

(** A positive, increasing stand-in for the exponential. *)
Definition exp (x : Q) : Q :=
  if Qle_bool 0 x then (1 + x)%Q else (1 / (1 - x))%Q.

(** A session that holds the logits it answers with. *)
Definition Session : Type := Tensor3.
Definition get_inputs (s : Session) : list string := ["input"].
Definition ort_run (s : Session) (inputs : list (string * Tensor4))
  : Session * result (list Tensor3) := (s, inr [s]).

Definition ModelProto : Type := string.
Definition onnx_parse (bytes : string) : result ModelProto :=
  if String.eqb bytes "" then inl (mkExc "DecodeError" "Error parsing message")
  else inr bytes.
Definition check_model (m : ModelProto) : result unit :=
  if String.prefix "onnx" m then inr tt
  else inl (mkExc "ValidationError" "model is not valid").

(** A logit row of the given size that favours token [i]. *)
Definition spike (size i : nat) : Tensor1 :=
  map (fun j => if j =? i then 4%Q else 0%Q) (seq 0 size).

(** Logits of one item reading "ab", then END, then two more positions. *)
Definition logits_ab : Tensor3 :=
  [[spike 99 11; spike 99 12; spike 99 0; spike 99 5; spike 99 5]].

(** Logits whose first position already is END. *)
Definition logits_empty : Tensor3 := [[spike 99 0; spike 99 11]].

Definition session_of_bytes (bytes : string) : result Session :=
  inr logits_ab.

Definition float_str (q : Q) : string := "0.5".

Definition fs_ok : FileSystem :=
  fun path => if String.eqb path "captcha.onnx" then Some "onnx-model" else None.
Definition fs_missing : FileSystem := fun path => None.
Definition fs_zero_byte : FileSystem :=
  fun path => if String.eqb path "captcha.onnx" then Some "" else None.
Definition fs_invalid : FileSystem :=
  fun path => if String.eqb path "captcha.onnx" then Some "garbage" else None.

Definition gray : Image :=
  mkImage L 2 2 (fun x y => [Z.of_nat (100 * x + 50 * y)]).

Definition solver_with (s : Session) : SimpleCaptchaSolver Session :=
  mkSolver "captcha.onnx" (32, 128) solver_charset
           (Tokenizer.make solver_charset) (_get_transform (32, 128)) s.

Definition state0 : State Session := mkState (solver_with logits_ab) [].
Definition state_empty : State Session := mkState (solver_with logits_empty) [].

Definition solve := solve_captcha resample exp Session get_inputs ort_run.

Definition tk_ab : Tokenizer.t := Tokenizer.make "ab".

(** A prediction of "ab", END and two padding positions, and one of padding
    alone. *)
Definition probs_padding : Tensor3 :=
  [[ [0; 0; 0; 0; 1]; [0; 1#10; 0; 0; 9#10] ]]%Q.
Definition probs_unsure : Tensor3 :=
  [[ [0; 9#10; 1#10; 0; 0]; [0; 1#5; 4#5; 0; 0]; [3#5; 2#5; 0; 0; 0];
     [0; 0; 0; 0; 1]; [0; 0; 0; 0; 1] ]]%Q.

(** Stand-ins for the library calls of the GUI methods. *)
Definition thumbnail (im : Image) (size : nat * nat) : Image := im.

(** An image object whose data cannot be read: a truncated file. *)
Definition truncated : pyobj :=
  let e := mkExc "OSError" "image file is truncated" in
  POther (inl e) (inl e).

Definition image_open (fs : FileSystem) (path : string) : result pyobj :=
  match fs path with
  | Some "gray-image" => inr (PImage gray)
  | Some "gray-ima" => inr truncated
  | Some _ => inl (mkExc "UnidentifiedImageError" "cannot identify image file")
  | None => inl (FileNotFoundError path)
  end.

(** An image in a mode [convert] has no conversion for. *)
Definition premultiplied : pyobj :=
  POther (inl (ValueError "conversion from La to RGB not supported"))
         (inr gray).

Definition crop (im : Image) (box : Z * Z * Z * Z) : Image :=
  let '(x1, y1, x2, y2) := box in
  mkImage (mode im) (Z.to_nat (x2 - x1)) (Z.to_nat (y2 - y1))
          (fun x y => getpixel im (x + Z.to_nat x1) (y + Z.to_nat y1)).

Definition py_eqb (a b : pyobj) : bool :=
  match a, b with
  | PImage i, PImage j =>
      (width i =? width j) && (height i =? height j)
  | PList l, PList m => if list_eq_dec string_dec l m then true else false
  | _, _ => false
  end.

Definition fs_app : FileSystem :=
  fun path =>
    if String.eqb path "captcha.onnx" then Some "onnx-model"
    else if String.eqb path "tokenizer_base.py" then Some "class Tokenizer"
    else if String.eqb path "shot.png" then Some "gray-image"
    else if String.eqb path "cut.png" then Some "gray-ima"
    else if String.eqb path "notes.txt" then Some "plain text"
    else None.

Definition app0 : App Session :=
  app__init__ Session ModelProto onnx_parse check_model session_of_bytes
              fs_app "copied before" [].

End Demo.

(** ** Facts about the tokenizer *)

Local Open Scope list_scope.

Example charset_length : String.length solver_charset = 96.
Proof. reflexivity. Qed.

Example decode_truncates :
  Tokenizer.decode Demo.tk_ab Demo.probs_unsure
  = inr (["ab"], [(9#10) * ((4#5) * ((3#5) * 1))]%Q).
Proof. reflexivity. Qed.

Example decode_padding :
  Tokenizer.decode Demo.tk_ab Demo.probs_padding
  = inr ([EmptyString], [1 * ((9#10) * 1)]%Q).
Proof. reflexivity. Qed.

Example solve_demo :
  snd (Demo.solve (PImage Demo.gray) Demo.state0) = inr (PyStr "ab").
Proof. vm_compute. reflexivity. Qed.

Lemma Qlt_bool_true (x y : Q) : Qlt_bool x y = true <-> (x < y)%Q.
Proof.
  unfold Qlt_bool. rewrite negb_true_iff.
  split; intros H.
  - apply Qnot_le_lt. intros Hle. apply Qle_bool_iff in Hle. congruence.
  - destruct (Qle_bool y x) eqn:E; [|reflexivity].
    apply Qle_bool_iff in E. exfalso. apply (Qlt_not_le _ _ H E).
Qed.

Lemma Qlt_bool_false (x y : Q) : Qlt_bool x y = false <-> (y <= x)%Q.
Proof.
  unfold Qlt_bool. rewrite negb_false_iff. apply Qle_bool_iff.
Qed.

Lemma rmapM_Forall2 {A B} (f : A -> result B) (l : list A) (bs : list B) :
  Forall2 (fun a b => f a = inr b) l bs -> rmapM f l = inr bs.
Proof.
  induction 1 as [|a b l bs Hab _ IH]; simpl.
  - reflexivity.
  - rewrite Hab. simpl. rewrite IH. reflexivity.
Qed.

Section GreedySelection.

Import Tokenizer.

(** The scan keeps the largest entry seen so far and the first index
    holding it. *)
Lemma max_from_is_argmax (l pre : list Q) (best : Q) (besti : nat) :
  is_argmax pre best besti ->
  forall p k, max_from best besti (List.length pre) l = (p, k) ->
  is_argmax (pre ++ l) p k.
Proof.
  revert pre best besti.
  induction l as [|x r IH]; intros pre best besti Hinv p k Hrun; simpl in Hrun.
  - inversion Hrun; subst. rewrite app_nil_r. exact Hinv.
  - destruct Hinv as (Hat & Hmax & Hfirst).
    assert (Hlt : besti < List.length pre)
      by (apply nth_error_Some; congruence).
    replace (pre ++ x :: r) with ((pre ++ [x]) ++ r)
      by (rewrite <- app_assoc; reflexivity).
    assert (Hlen : List.length (pre ++ [x]) = S (List.length pre))
      by (rewrite length_app; simpl; lia).
    destruct (Qlt_bool best x) eqn:E.
    + apply Qlt_bool_true in E.
      apply (IH (pre ++ [x]) x (List.length pre)); [|rewrite Hlen; exact Hrun].
      repeat split.
      * rewrite nth_error_app2 by lia. rewrite Nat.sub_diag. reflexivity.
      * intros j q Hj.
        destruct (Nat.lt_ge_cases j (List.length pre)) as [Hjl|Hjl].
        -- rewrite nth_error_app1 in Hj by exact Hjl.
           apply Qlt_le_weak. eapply Qle_lt_trans; [|exact E]. eauto.
        -- rewrite nth_error_app2 in Hj by exact Hjl.
           destruct (j - List.length pre) as [|m]; simpl in Hj.
           ++ inversion Hj; subst. apply Qle_refl.
           ++ destruct m; discriminate.
      * intros j q Hjl Hj. rewrite nth_error_app1 in Hj by exact Hjl.
        eapply Qle_lt_trans; [|exact E]. eauto.
    + apply Qlt_bool_false in E.
      apply (IH (pre ++ [x]) best besti); [|rewrite Hlen; exact Hrun].
      repeat split.
      * rewrite nth_error_app1 by exact Hlt. exact Hat.
      * intros j q Hj.
        destruct (Nat.lt_ge_cases j (List.length pre)) as [Hjl|Hjl].
        -- rewrite nth_error_app1 in Hj by exact Hjl. eauto.
        -- rewrite nth_error_app2 in Hj by exact Hjl.
           destruct (j - List.length pre) as [|m]; simpl in Hj.
           ++ inversion Hj; subst. exact E.
           ++ destruct m; discriminate.
      * intros j q Hjl Hj.
        rewrite nth_error_app1 in Hj by lia. eauto.
Qed.

Lemma argmax_sound (d : Tensor1) (p : Q) (i : nat) :
  argmax d = inr (p, i) -> is_argmax d p i.
Proof.
  destruct d as [|x r]; simpl; intros H; [discriminate|].
  inversion H as [Hrun]. clear H.
  apply (max_from_is_argmax r [x] x 0); [|exact Hrun].
  repeat split.
  - intros [|[|j]] q Hj; simpl in Hj; try discriminate.
    inversion Hj; subst. apply Qle_refl.
  - intros j q Hj. lia.
Qed.

Lemma is_argmax_unique (d : Tensor1) (p q : Q) (i j : nat) :
  is_argmax d p i -> is_argmax d q j -> p = q /\ i = j.
Proof.
  intros (Hp & Hpmax & Hpfirst) (Hq & Hqmax & Hqfirst).
  assert (i = j) as ->.
  { destruct (Nat.lt_trichotomy i j) as [Hlt|[Heq|Hgt]]; [|exact Heq|].
    - exfalso. apply (Qlt_not_le _ _ (Hqfirst _ _ Hlt Hp)). eauto.
    - exfalso. apply (Qlt_not_le _ _ (Hpfirst _ _ Hgt Hq)). eauto. }
  split; [congruence|reflexivity].
Qed.

Lemma argmax_complete (d : Tensor1) (p : Q) (i : nat) :
  is_argmax d p i -> argmax d = inr (p, i).
Proof.
  intros H.
  destruct d as [|x r].
  - destruct H as (Hat & _). destruct i; discriminate.
  - simpl. destruct (max_from x 0 1 r) as [q j] eqn:E.
    assert (Hs : is_argmax (x :: r) q j)
      by (apply argmax_sound; simpl; rewrite E; reflexivity).
    destruct (is_argmax_unique _ _ _ _ _ H Hs) as [-> ->]. reflexivity.
Qed.

Lemma greedy_all (dists : Tensor2) (sel : list (Q * nat)) :
  Forall2 (fun d pi => is_argmax d (fst pi) (snd pi)) dists sel ->
  rmapM argmax dists = inr sel.
Proof.
  intros H. apply rmapM_Forall2.
  induction H as [|d [p i] ds sel Hd _ IH]; constructor; auto.
  apply argmax_complete. exact Hd.
Qed.

End GreedySelection.

Section DecodeFacts.

Import Tokenizer.

Lemma first_end_nil (n : nat) : first_end [] n -> n = 0.
Proof. intros (H & _). simpl in H. lia. Qed.

Lemma first_end_cons_zero (i : nat) (ids : list nat) :
  first_end (i :: ids) 0 -> i = eos_id.
Proof.
  intros (_ & _ & H). simpl in H.
  assert (E : Some i = Some eos_id) by (apply H; lia).
  congruence.
Qed.

Lemma first_end_cons_succ (i : nat) (ids : list nat) (n : nat) :
  first_end (i :: ids) (S n) -> i <> eos_id /\ first_end ids n.
Proof.
  intros (Hlen & Hbefore & Hat). simpl in Hlen. split.
  - apply (Hbefore 0); [lia|reflexivity].
  - repeat split.
    + lia.
    + intros k j Hk Hj. apply (Hbefore (S k)); [lia|exact Hj].
    + intros Hn. apply Hat. simpl. lia.
Qed.

(** The consumed positions are the first [n + 1]. *)
Lemma consume_firstn (sel : list (Q * nat)) (n : nat) :
  first_end (map snd sel) n -> consume sel = firstn (S n) sel.
Proof.
  revert n. induction sel as [|[p i] r IH]; intros n H.
  - reflexivity.
  - simpl in H. destruct n as [|n].
    + apply first_end_cons_zero in H. subst i. reflexivity.
    + apply first_end_cons_succ in H. destruct H as [Hi H].
      cbn [consume]. apply Nat.eqb_neq in Hi. rewrite Hi.
      rewrite (IH n H). reflexivity.
Qed.

(** Dropping END from the consumed ids leaves the first [n] ids. *)
Lemma consumed_ids (sel : list (Q * nat)) (n : nat) :
  first_end (map snd sel) n ->
  filter (fun i => negb (i =? eos_id)) (map snd (firstn (S n) sel))
  = firstn n (map snd sel).
Proof.
  revert n. induction sel as [|[p i] r IH]; intros n H.
  - apply first_end_nil in H. subst n. reflexivity.
  - simpl in H. destruct n as [|n].
    + apply first_end_cons_zero in H. subst i. reflexivity.
    + apply first_end_cons_succ in H. destruct H as [Hi H].
      change (firstn (S (S n)) ((p, i) :: r)) with ((p, i) :: firstn (S n) r).
      cbn [map snd filter]. apply Nat.eqb_neq in Hi. rewrite Hi.
      cbn [negb]. rewrite (IH n H). reflexivity.
Qed.

Lemma characters_all (cs : list ascii) : characters (map Some cs) = cs.
Proof. induction cs as [|c cs IH]; simpl; [|rewrite IH]; reflexivity. Qed.

Lemma ids2tok_chars (tk : t) (ids : list nat) (cs : list ascii) :
  Forall2 (fun i c => nth_error (itos tk) i = Some (Chr c)) ids cs ->
  ids2tok tk ids = inr (string_of_list_ascii cs).
Proof.
  intros H. unfold ids2tok.
  rewrite (rmapM_Forall2 (id2char tk) ids (map Some cs)).
  - cbn [rbind]. rewrite characters_all. reflexivity.
  - induction H as [|i c ids cs Hi _ IH]; simpl; constructor; auto.
    unfold id2char. rewrite Hi. reflexivity.
Qed.

(** Decoding one item computes what [decodes_to] describes. *)
Lemma decode_one_spec (tk : t) (dists : Tensor2) (text : string) (conf : Q) :
  decodes_to tk dists text conf -> decode_one tk dists = inr (text, conf).
Proof.
  intros (sel & n & cs & Hsel & Hend & Hcs & -> & ->).
  unfold decode_one. rewrite (greedy_all _ _ Hsel). simpl.
  rewrite (consume_firstn _ _ Hend), (consumed_ids _ _ Hend).
  rewrite (ids2tok_chars _ _ _ Hcs). reflexivity.
Qed.

Lemma decode_batch_spec (tk : t) (batch : Tensor3) (outs : list (string * Q)) :
  Forall2 (fun dists o => decodes_to tk dists (fst o) (snd o)) batch outs ->
  decode tk batch = inr (map fst outs, map snd outs).
Proof.
  intros H. unfold decode.
  rewrite (rmapM_Forall2 (decode_one tk) batch outs); [reflexivity|].
  induction H as [|d [text conf] ds outs Hd _ IH]; constructor; auto.
  apply decode_one_spec. exact Hd.
Qed.

End DecodeFacts.

Section TokenizerLayout.

Import Tokenizer.

Lemma token_eqb_eq (a b : token) : token_eqb a b = true <-> a = b.
Proof.
  destruct a, b; simpl; split; intros H;
    try reflexivity; try discriminate.
  - apply Ascii.eqb_eq in H. congruence.
  - inversion H. apply Ascii.eqb_refl.
Qed.

Lemma index_of_sound (x : token) (l : list token) (i : nat) :
  index_of x l = Some i -> nth_error l i = Some x.
Proof.
  revert i. induction l as [|y r IH]; simpl; intros i H; [discriminate|].
  destruct (token_eqb x y) eqn:E.
  - inversion H; subst. apply token_eqb_eq in E. subst. reflexivity.
  - destruct (index_of x r) as [j|]; simpl in H; [|discriminate].
    inversion H; subst. simpl. apply IH. reflexivity.
Qed.

Lemma index_of_complete (x : token) (l : list token) :
  In x l -> exists i, index_of x l = Some i.
Proof.
  induction l as [|y r IH]; simpl; intros H; [contradiction|].
  destruct (token_eqb x y) eqn:E; [eauto|].
  destruct H as [H|H].
  - subst. assert (token_eqb x x = true) by (apply token_eqb_eq; reflexivity).
    congruence.
  - destruct (IH H) as [i ->]. simpl. eauto.
Qed.

Lemma index_of_none (x : token) (l : list token) :
  index_of x l = None -> ~ In x l.
Proof.
  intros H Hin. destruct (index_of_complete x l Hin) as [i Hi]. congruence.
Qed.

Lemma In_Chr_make (charset : string) (c : ascii) :
  In (Chr c) (itos (make charset)) <-> In c (list_ascii_of_string charset).
Proof.
  unfold make. simpl. split.
  - intros [H|H]; [discriminate|].
    apply in_app_or in H. destruct H as [H|H].
    + apply in_map_iff in H. destruct H as (c' & E & H). congruence.
    + simpl in H. destruct H as [H|[H|[]]]; discriminate.
  - intros H. right. apply in_or_app. left. apply in_map. exact H.
Qed.

(** In the layout of [make], a character id is never the END id. *)
Lemma char_id_not_eos (charset : string) (i : nat) (c : ascii) :
  nth_error (itos (make charset)) i = Some (Chr c) -> i <> eos_id.
Proof. intros H ->. discriminate. Qed.

End TokenizerLayout.

(** ** Round trip through [encode] and [decode] *)

Section RoundTrip.

Import Tokenizer.

Lemma nth_error_map_seq {A} (f : nat -> A) (n i : nat) :
  nth_error (map f (seq 0 n)) i = if i <? n then Some (f i) else None.
Proof.
  destruct (Nat.ltb_spec i n) as [H|H].
  - rewrite nth_error_map, nth_error_seq.
    apply Nat.ltb_lt in H. rewrite H. reflexivity.
  - apply nth_error_None. rewrite length_map, length_seq. exact H.
Qed.

Lemma one_hot_is_argmax (size i : nat) :
  i < size -> is_argmax (one_hot size i) 1%Q i.
Proof.
  intros Hi. unfold one_hot. repeat split.
  - rewrite nth_error_map_seq. apply Nat.ltb_lt in Hi. rewrite Hi.
    rewrite Nat.eqb_refl. reflexivity.
  - intros j q Hj. rewrite nth_error_map_seq in Hj.
    destruct (j <? size); [|discriminate].
    inversion Hj; subst. destruct (j =? i); discriminate.
  - intros j q Hlt Hj. rewrite nth_error_map_seq in Hj.
    destruct (j <? size); [|discriminate].
    inversion Hj; subst.
    destruct (Nat.eqb_spec j i); [lia|reflexivity].
Qed.

(** Encoding succeeds on charset characters and yields ids of characters. *)
Lemma encode_chars (charset : string) (cs : list ascii) :
  Forall (fun c => In c (list_ascii_of_string charset)) cs ->
  exists ids,
    rmapM (stoi (make charset)) cs = inr ids /\
    Forall2 (fun i c => nth_error (itos (make charset)) i = Some (Chr c)) ids cs.
Proof.
  induction 1 as [|c cs Hc _ (ids & Hids & Hall)].
  - exists []. split; [reflexivity|constructor].
  - apply In_Chr_make in Hc.
    destruct (index_of_complete _ _ Hc) as [i Hi].
    exists (i :: ids). split.
    + simpl. unfold stoi at 1. rewrite Hi. simpl. rewrite Hids. reflexivity.
    + constructor; [|exact Hall]. apply index_of_sound. exact Hi.
Qed.

(** Encoding fails exactly on a character outside the charset. *)
Lemma encode_fails_iff (charset : string) (cs : list ascii) :
  (exists e, rmapM (stoi (make charset)) cs = inl e) <->
  Exists (fun c => ~ In c (list_ascii_of_string charset)) cs.
Proof.
  induction cs as [|c cs IH]; simpl.
  - split; [intros [e H]; discriminate|intros H; inversion H].
  - unfold stoi at 1.
    destruct (index_of (Chr c) (itos (make charset))) as [i|] eqn:Ei; simpl.
    + assert (Hin : In c (list_ascii_of_string charset)).
      { apply In_Chr_make. eapply nth_error_In. apply index_of_sound. eauto. }
      destruct (rmapM (stoi (make charset)) cs) as [e|ids]; simpl.
      * split; [intros _|eauto].
        apply Exists_cons_tl. apply IH. eauto.
      * split; [intros [e H]; discriminate|].
        intros H. inversion H; subst; [contradiction|].
        apply IH in H1. destruct H1 as [e H1]. discriminate.
    + split; [intros _|eauto].
      apply Exists_cons_hd. intros Hin. apply In_Chr_make in Hin.
      apply (index_of_none _ _ Ei Hin).
Qed.

End RoundTrip.

Section RoundTripTheorem.

Import Tokenizer.

Lemma Qprod_all_ones {A} (l : list A) :
  (Qprod (map (fun _ => 1%Q) l) == 1)%Q.
Proof.
  induction l as [|a l IH]; simpl.
  - reflexivity.
  - unfold Qprod in IH. rewrite IH. reflexivity.
Qed.

Lemma encode_error (charset : string) (cs : list ascii) (e : Exception) :
  rmapM (stoi (make charset)) cs = inl e ->
  exists c, e = UnknownCharacterError c /\ In c cs /\
            ~ In c (list_ascii_of_string charset).
Proof.
  induction cs as [|c cs IH]; simpl; intros H; [discriminate|].
  unfold stoi at 1 in H.
  destruct (index_of (Chr c) (itos (make charset))) as [i|] eqn:Ei; simpl in H.
  - destruct (rmapM (stoi (make charset)) cs) as [e'|ids]; simpl in H;
      [|discriminate].
    inversion H; subst. destruct (IH eq_refl) as (c' & E & Hin & Hout).
    exists c'. auto.
  - inversion H; subst. exists c. repeat split; auto.
    intros Hin. apply In_Chr_make in Hin. apply (index_of_none _ _ Ei Hin).
Qed.

Lemma Forall2_nth_error_l {A B} (R : A -> B -> Prop) (l : list A)
      (l' : list B) (k : nat) (a : A) :
  Forall2 R l l' -> nth_error l k = Some a ->
  exists b, nth_error l' k = Some b /\ R a b.
Proof.
  intros H. revert k. induction H as [|x y l l' Hxy _ IH]; intros k Hk.
  - destruct k; discriminate.
  - destruct k as [|k]; simpl in *.
    + inversion Hk; subst. eauto.
    + apply IH. exact Hk.
Qed.

(** One-hot rendering of character ids decodes to the characters. *)
Lemma one_hot_decodes (charset : string) (ids : list nat) (cs : list ascii) :
  let tk := make charset in
  Forall2 (fun i c => nth_error (itos tk) i = Some (Chr c)) ids cs ->
  decodes_to tk (map (one_hot (vocabulary_size tk)) ids)
             (string_of_list_ascii cs)
             (Qprod (map fst (map (fun i => (1%Q, i)) ids))).
Proof.
  intros tk H.
  exists (map (fun i => (1%Q, i)) ids), (List.length ids), cs.
  assert (Hsnd : map snd (map (fun i => (1%Q, i)) ids) = ids).
  { rewrite map_map. simpl. apply map_id. }
  rewrite Hsnd. split; [|split; [|split; [|split]]].
  - clear Hsnd. induction H as [|i c ids cs Hi _ IH]; simpl; constructor; auto.
    simpl. apply one_hot_is_argmax. unfold vocabulary_size.
    apply nth_error_Some. congruence.
  - split; [lia|]. split; [|lia].
    intros k i _ Hk.
    destruct (Forall2_nth_error_l _ _ _ _ _ H Hk) as (c & _ & Hc).
    apply (char_id_not_eos _ _ _ Hc).
  - rewrite firstn_all. exact H.
  - reflexivity.
  - rewrite firstn_all2; [reflexivity|]. rewrite length_map. lia.
Qed.

End RoundTripTheorem.

(** C7.  For a text made of charset characters, encoding it, rendering the
    ids as one-hot distributions and decoding them gives the text back (with
    confidence one); and [encode] fails, with [UnknownCharacterError], exactly
    when the text holds a character outside the charset. *)
Theorem encode_decode_round_trip (charset text : string) :
  let tk := Tokenizer.make charset in
  let inside c := In c (list_ascii_of_string charset) in
  ((forall c, In c (list_ascii_of_string text) -> inside c) ->
   exists ids conf,
     Tokenizer.encode tk text = inr ids /\
     Tokenizer.decode tk
       [map (Tokenizer.one_hot (Tokenizer.vocabulary_size tk)) ids]
     = inr ([text], [conf]) /\
     (conf == 1)%Q) /\
  ((exists e, Tokenizer.encode tk text = inl e) <->
   (exists c, In c (list_ascii_of_string text) /\ ~ inside c)) /\
  (forall e, Tokenizer.encode tk text = inl e ->
   exists c, e = Tokenizer.UnknownCharacterError c /\
             In c (list_ascii_of_string text) /\ ~ inside c).
Proof.
  intros tk inside. split; [|split].
  - intros Hall. apply Forall_forall in Hall.
    destruct (encode_chars charset _ Hall) as (ids & Henc & Hids).
    exists ids, (Qprod (map fst (map (fun i => (1%Q, i)) ids))).
    split; [exact Henc|]. split.
    + rewrite <- (string_of_list_ascii_of_string text).
      apply (decode_batch_spec tk _
               [(string_of_list_ascii (list_ascii_of_string text),
                 Qprod (map fst (map (fun i => (1%Q, i)) ids)))]).
      constructor; [|constructor].
      apply one_hot_decodes. exact Hids.
    + rewrite map_map. simpl. apply Qprod_all_ones.
  - unfold Tokenizer.encode.
    etransitivity; [apply encode_fails_iff|]. apply Exists_exists.
  - intros e He. apply (encode_error charset _ e He).
Qed.

(** A run of [encode_decode_round_trip] on the solver's charset. *)
Lemma encode_decode_round_trip_witness :
  exists ids conf,
    Tokenizer.encode (Tokenizer.make solver_charset) "x7\#Q" = inr ids /\
    Tokenizer.decode (Tokenizer.make solver_charset)
      [map (Tokenizer.one_hot
              (Tokenizer.vocabulary_size (Tokenizer.make solver_charset))) ids]
    = inr (["x7\#Q"%string], [conf]) /\
    (conf == 1)%Q.
Proof.
  apply (proj1 (encode_decode_round_trip solver_charset "x7\#Q")).
  intros c Hc. simpl in Hc.
  repeat (destruct Hc as [<-|Hc]; [vm_compute; tauto|]).
  contradiction.
Defined.

Example encode_rejects_space :
  Tokenizer.encode (Tokenizer.make solver_charset) "a b"
  = inl (Tokenizer.UnknownCharacterError " "%char).
Proof. reflexivity. Qed.

(** ** The preprocessing transform *)

Lemma clip8_range (v : Z) : (0 <= clip8 v <= 255)%Z.
Proof. unfold clip8. lia. Qed.

Lemma nth_map_seq {A} (f : nat -> A) (n i : nat) (d : A) :
  i < n -> nth i (map f (seq 0 n)) d = f i.
Proof.
  intros H. apply nth_error_nth. rewrite nth_error_map, nth_error_seq.
  apply Nat.ltb_lt in H. rewrite H. reflexivity.
Qed.

Lemma nth_map_default {A B} (f : A -> B) (l : list A) (i : nat) (d : A) (e : B) :
  i < List.length l -> nth i (map f l) e = f (nth i l d).
Proof.
  intros H. rewrite (nth_indep _ e (f d)) by (rewrite length_map; exact H).
  apply map_nth.
Qed.

Lemma to_tensor_shape (im : Image) :
  has_shape (bands (mode im)) (height im) (width im) (to_tensor im).
Proof.
  unfold has_shape, to_tensor. split.
  - rewrite length_map, length_seq. reflexivity.
  - apply Forall_forall. intros plane Hp.
    apply in_map_iff in Hp. destruct Hp as (c & <- & _). split.
    + rewrite length_map, length_seq. reflexivity.
    + apply Forall_forall. intros row Hr.
      apply in_map_iff in Hr. destruct Hr as (y & <- & _).
      rewrite length_map, length_seq. reflexivity.
Qed.

Lemma normalize_shape (mean std : Q) (c h w : nat) (t : Tensor3) :
  has_shape c h w t -> has_shape c h w (normalize mean std t).
Proof.
  unfold has_shape, normalize. intros [Hc Hall]. split.
  - rewrite length_map. exact Hc.
  - apply Forall_forall. intros plane Hp.
    apply in_map_iff in Hp. destruct Hp as (plane0 & <- & Hin).
    rewrite Forall_forall in Hall. destruct (Hall _ Hin) as [Hh Hrows]. split.
    + rewrite length_map. exact Hh.
    + apply Forall_forall. intros row Hr.
      apply in_map_iff in Hr. destruct Hr as (row0 & <- & Hin0).
      rewrite Forall_forall in Hrows. rewrite length_map. auto.
Qed.

Lemma to_tensor_nth (im : Image) (c y x : nat) :
  c < bands (mode im) -> y < height im -> x < width im ->
  nth x (nth y (nth c (to_tensor im) []) []) 0%Q
  = (inject_Z (band (getpixel im x y) c) / 255)%Q.
Proof.
  intros Hc Hy Hx. unfold to_tensor, Tensor2, Tensor1.
  rewrite (nth_map_seq _ _ c [] Hc), (nth_map_seq _ _ y [] Hy).
  rewrite (nth_map_seq _ _ x 0%Q Hx). reflexivity.
Qed.

Lemma normalize_nth (mean std : Q) (ch h w : nat) (t : Tensor3) (c y x : nat) :
  has_shape ch h w t -> c < ch -> y < h -> x < w ->
  nth x (nth y (nth c (normalize mean std t) []) []) 0%Q
  = ((nth x (nth y (nth c t []) []) 0 - mean) / std)%Q.
Proof.
  intros [Hlen Hall] Hc Hy Hx. unfold normalize, Tensor3, Tensor2, Tensor1 in *.
  rewrite Forall_forall in Hall.
  assert (Hplane : In (nth c t []) t) by (apply nth_In; lia).
  destruct (Hall _ Hplane) as [Hh Hrows]. rewrite Forall_forall in Hrows.
  assert (Hrow : In (nth y (nth c t []) []) (nth c t [])) by (apply nth_In; lia).
  specialize (Hrows _ Hrow).
  rewrite (nth_map_default _ t c [] []) by lia.
  rewrite (nth_map_default _ (nth c t []) y [] []) by lia.
  rewrite (nth_map_default _ (nth y (nth c t []) []) x 0%Q 0%Q) by lia.
  reflexivity.
Qed.

Lemma normalized_byte_range (p : Z) :
  (0 <= p <= 255)%Z ->
  (-(1) <= (inject_Z p / 255 - (1#2)) / (1#2) <= 1)%Q.
Proof.
  intros [Hlo Hhi].
  rewrite Zle_Qle in Hlo, Hhi.
  change (inject_Z 0) with 0%Q in Hlo. change (inject_Z 255) with 255%Q in Hhi.
  unfold Qdiv. change (/ 255)%Q with (1#255)%Q. change (/ (1#2))%Q with 2%Q.
  split; lra.
Qed.

Section PreprocessFacts.

Variable resample :
  InterpolationMode -> Image -> nat -> nat -> nat -> nat -> nat -> Z.

Lemma resize_geometry (h w : nat) (f : InterpolationMode) (im : Image) :
  mode (resize resample (h, w) f im) = mode im /\
  height (resize resample (h, w) f im) = h /\
  width (resize resample (h, w) f im) = w.
Proof. repeat split. Qed.

Lemma resize_band_range (h w : nat) (f : InterpolationMode) (im : Image)
      (x y c : nat) :
  (0 <= band (getpixel (resize resample (h, w) f im) x y) c <= 255)%Z.
Proof.
  unfold band. cbn [resize getpixel].
  destruct (Nat.lt_ge_cases c (bands (mode im))) as [Hc|Hc].
  - rewrite (nth_map_seq _ _ c 0%Z Hc). apply clip8_range.
  - rewrite nth_overflow by (rewrite length_map, length_seq; exact Hc). lia.
Qed.

(** The three transforms of [_get_transform] run on an image without
    raising. *)
Lemma compose_on_image (size : nat * nat) (im : Image) :
  apply_compose resample (_get_transform size) (VImage im)
  = inr (VTensor (normalize (1#2) (1#2)
                    (to_tensor (resize resample size BICUBIC im)))).
Proof. reflexivity. Qed.

End PreprocessFacts.

(** C2 (as amended).  The transform is the bicubic resize to 32 by 128,
    [ToTensor] and [Normalize(0.5, 0.5)], run on [img.convert('RGB')].  An
    image in mode L, RGB or RGBA is converted without failure (gray
    replicated into three bands, alpha dropped, size kept).  When the
    conversion raises, preprocessing raises the same exception and yields no
    tensor.  When it returns, the whole converted image is resampled with the
    bicubic filter to exactly 128 by 32 pixels, each band clipped to a byte
    (no padding, no cropping), and the result is a tensor of shape
    3 x 32 x 128 whose value at channel [c], row [y], column [x] is
    [(p/255 - 0.5) / 0.5] for the band [p] of the resized pixel, a number in
    [-1, 1]. *)
Theorem preprocess_shape_and_values
        (resample : InterpolationMode -> Image -> nat -> nat -> nat -> nat -> nat -> Z)
        (img : pyobj) :
  let tf := _get_transform (32, 128) in
  tf = [Resize (32, 128) BICUBIC; ToTensor; Normalize (1#2) (1#2)] /\
  (forall im, img = PImage im ->
     exists rgb,
       convert img = inr rgb /\
       width rgb = width im /\ height rgb = height im /\
       forall x y,
         let px := getpixel im x y in
         getpixel rgb x y
         = match mode im with
           | L => [band px 0; band px 0; band px 0]
           | RGB | RGBA => [band px 0; band px 1; band px 2]
           end) /\
  (forall e, convert img = inl e -> preprocess resample tf img = inl e) /\
  (forall rgb, convert img = inr rgb ->
     let resized := resize resample (32, 128) BICUBIC rgb in
     mode rgb = RGB /\
     mode resized = RGB /\ width resized = 128 /\ height resized = 32 /\
     exists t : Tensor3,
       preprocess resample tf img = inr [t] /\
       has_shape 3 32 128 t /\
       forall c y x, c < 3 -> y < 32 -> x < 128 ->
         let p := band (getpixel resized x y) c in
         let v := nth x (nth y (nth c t []) []) 0%Q in
         p = clip8 (resample BICUBIC rgb 128 32 x y c) /\
         v = ((inject_Z p / 255 - (1#2)) / (1#2))%Q /\
         (-(1) <= v <= 1)%Q).
Proof.
  intros tf. split; [reflexivity|]. split; [|split].
  - intros im ->. exists (convert_RGB im). repeat split.
  - intros e He. unfold preprocess. rewrite He. reflexivity.
  - intros rgb Hrgb resized.
    assert (Hmode : mode rgb = RGB).
    { destruct img as [im|names|[e|im] shown]; cbn in Hrgb;
        try discriminate Hrgb; inversion Hrgb; reflexivity. }
    assert (Hres : mode resized = RGB) by exact Hmode.
    split; [exact Hmode|]. split; [exact Hres|].
    split; [reflexivity|]. split; [reflexivity|].
    exists (normalize (1#2) (1#2) (to_tensor resized)).
    assert (Hshape : has_shape 3 32 128 (to_tensor resized)).
    { pose proof (to_tensor_shape resized) as H. rewrite Hres in H. exact H. }
    split; [|split].
    + unfold preprocess. rewrite Hrgb. cbn [rbind]. unfold tf.
      rewrite compose_on_image. reflexivity.
    + apply normalize_shape. exact Hshape.
    + intros c y x Hc Hy Hx p v.
      assert (Hp : p = clip8 (resample BICUBIC rgb 128 32 x y c)).
      { unfold p, band, resized. cbn [resize getpixel]. rewrite Hmode.
        cbn [bands].
        exact (nth_map_seq (fun k => clip8 (resample BICUBIC rgb 128 32 x y k))
                           3 c 0%Z Hc). }
      assert (Hv : v = ((inject_Z p / 255 - (1#2)) / (1#2))%Q).
      { unfold v. rewrite (normalize_nth _ _ 3 32 128 _ c y x Hshape Hc Hy Hx).
        rewrite (to_tensor_nth resized c y x); [reflexivity| |exact Hy|exact Hx].
        rewrite Hres. exact Hc. }
      split; [exact Hp|]. split; [exact Hv|]. rewrite Hv.
      apply normalized_byte_range. rewrite Hp. apply clip8_range.
Qed.

(** C2, the claim as stated fails: an image in PIL's mode La has no
    conversion to RGB, and the data of a truncated file cannot be read, so for
    these images preprocessing raises and there is no tensor; the solve call
    then prints the error and returns [None]. *)
Lemma preprocess_rejects_unconvertible :
  preprocess Demo.resample (_get_transform (32, 128)) Demo.premultiplied
  = inl (ValueError "conversion from La to RGB not supported") /\
  preprocess Demo.resample (_get_transform (32, 128)) Demo.truncated
  = inl (mkExc "OSError" "image file is truncated") /\
  Demo.solve Demo.premultiplied Demo.state0
  = (mkState (Demo.solver_with Demo.logits_ab)
       ["Error solving CAPTCHA: conversion from La to RGB not supported"%string],
     inr PyNone).
Proof. repeat split. Qed.

Example preprocess_gray_sample :
  exists t,
    preprocess Demo.resample (_get_transform (32, 128)) (PImage Demo.gray)
    = inr [t] /\
    nth 127 (nth 0 (nth 2 t []) []) 0%Q
    = ((inject_Z 100 / 255 - (1#2)) / (1#2))%Q.
Proof. eexists. split; reflexivity. Qed.

(** ** Softmax and the decoding step *)

Lemma Qsum_scaled (z : Q) (es : list Q) :
  (Qsum (map (fun e => e / z) es) == Qsum es / z)%Q.
Proof.
  unfold Qsum. induction es as [|e es IH]; simpl.
  - unfold Qdiv. ring.
  - rewrite IH. unfold Qdiv. ring.
Qed.

Lemma Qsum_positive (es : list Q) :
  es <> [] -> Forall (fun e => (0 < e)%Q) es -> (0 < Qsum es)%Q.
Proof.
  intros Hne Hall. induction Hall as [|e es He Hes IH]; [congruence|].
  cbv beta in He. destruct es as [|e' es'].
  - clear - He. simpl. lra.
  - assert (H : (0 < Qsum (e' :: es'))%Q) by (apply IH; discriminate).
    clear - He H. change (Qsum (e :: e' :: es')) with (e + Qsum (e' :: es'))%Q.
    lra.
Qed.

Lemma demo_exp_positive (x : Q) : (0 < Demo.exp x)%Q.
Proof.
  unfold Demo.exp. destruct (Qle_bool 0 x) eqn:E.
  - apply Qle_bool_iff in E. lra.
  - assert (Hx : (x < 0)%Q).
    { apply Qnot_le_lt. intros H. apply Qle_bool_iff in H. congruence. }
    unfold Qdiv. rewrite Qmult_1_l. apply Qinv_lt_0_compat. lra.
Qed.

Section SoftmaxFacts.

Variable exp : Q -> Q.
Hypothesis exp_positive : forall x, (0 < exp x)%Q.

Lemma softmax_is_distribution (row : Tensor1) :
  row <> [] -> is_distribution (softmax exp row).
Proof.
  intros Hne. unfold softmax, is_distribution.
  assert (Hes : Forall (fun e => (0 < e)%Q) (map exp row)).
  { apply Forall_forall. intros e He. apply in_map_iff in He.
    destruct He as (x & <- & _). apply exp_positive. }
  assert (Hz : (0 < Qsum (map exp row))%Q).
  { apply Qsum_positive; [|exact Hes]. destruct row; [congruence|discriminate]. }
  split.
  - apply Forall_forall. intros p Hp. apply in_map_iff in Hp.
    destruct Hp as (e & <- & He). rewrite Forall_forall in Hes.
    unfold Qdiv. apply Qmult_lt_0_compat; [auto|].
    apply Qinv_lt_0_compat. exact Hz.
  - rewrite Qsum_scaled. unfold Qdiv. apply Qmult_inv_r. lra.
Qed.

Lemma softmax_length (row : Tensor1) :
  List.length (softmax exp row) = List.length row.
Proof. unfold softmax. rewrite !length_map. reflexivity. Qed.

End SoftmaxFacts.

Lemma demo_exp_proper (x y : Q) : (x == y)%Q -> (Demo.exp x == Demo.exp y)%Q.
Proof.
  intros H. unfold Demo.exp.
  destruct (Qle_bool 0 x) eqn:Ex, (Qle_bool 0 y) eqn:Ey.
  - rewrite H. reflexivity.
  - apply Qle_bool_iff in Ex. rewrite H in Ex. apply Qle_bool_iff in Ex.
    congruence.
  - apply Qle_bool_iff in Ey. rewrite <- H in Ey. apply Qle_bool_iff in Ey.
    congruence.
  - rewrite H. reflexivity.
Qed.

Lemma demo_exp_increasing (x y : Q) : (x < y)%Q -> (Demo.exp x < Demo.exp y)%Q.
Proof.
  intros H. unfold Demo.exp.
  destruct (Qle_bool 0 x) eqn:Ex, (Qle_bool 0 y) eqn:Ey.
  - lra.
  - apply Qle_bool_iff in Ex.
    assert (Hy : (y < 0)%Q).
    { apply Qnot_le_lt. intros G. apply Qle_bool_iff in G. congruence. }
    lra.
  - apply Qle_bool_iff in Ey.
    assert (Hx : (x < 0)%Q).
    { apply Qnot_le_lt. intros G. apply Qle_bool_iff in G. congruence. }
    apply Qlt_shift_div_r; [lra|]. nra.
  - assert (Hx : (x < 0)%Q).
    { apply Qnot_le_lt. intros G. apply Qle_bool_iff in G. congruence. }
    assert (Hy : (y < 0)%Q).
    { apply Qnot_le_lt. intros G. apply Qle_bool_iff in G. congruence. }
    unfold Qdiv. rewrite !Qmult_1_l. clear Ex Ey.
    assert (Ha : (0 < 1 - y)%Q) by lra.
    assert (Hb : (0 < 1 - x)%Q) by lra.
    apply (proj1 (Qinv_lt_contravar (1 - y) (1 - x) Ha Hb)). lra.
Qed.

Section SoftmaxOrder.

Variable exp : Q -> Q.
Hypothesis exp_positive : forall x, (0 < exp x)%Q.
Hypothesis exp_increasing : forall x y, (x < y)%Q -> (exp x < exp y)%Q.
Hypothesis exp_proper : forall x y, (x == y)%Q -> (exp x == exp y)%Q.

Lemma exp_lt (x y : Q) : (exp x < exp y)%Q <-> (x < y)%Q.
Proof.
  split; [|apply exp_increasing].
  intros H. destruct (Qlt_le_dec x y) as [Hlt|Hle]; [exact Hlt|].
  exfalso. destruct (Qle_lt_or_eq _ _ Hle) as [Hyx|Heq].
  - apply exp_increasing in Hyx.
    exact (Qlt_irrefl _ (Qlt_trans _ _ _ H Hyx)).
  - apply exp_proper in Heq. rewrite Heq in H. exact (Qlt_irrefl _ H).
Qed.

Lemma exp_le (x y : Q) : (exp x <= exp y)%Q <-> (x <= y)%Q.
Proof.
  split; intros H; apply Qnot_lt_le; intros G.
  - apply exp_increasing in G. exact (Qle_not_lt _ _ H G).
  - apply (proj1 (exp_lt _ _)) in G. exact (Qle_not_lt _ _ H G).
Qed.

(** The entries of a softmax row, position by position. *)
Lemma softmax_nth_error (row : Tensor1) (k : nat) :
  nth_error (softmax exp row) k
  = option_map (fun x => (exp x / Qsum (map exp row))%Q) (nth_error row k).
Proof.
  unfold softmax. rewrite !nth_error_map.
  destruct (nth_error row k); reflexivity.
Qed.

Lemma softmax_sum_positive (row : Tensor1) (k : nat) (x : Q) :
  nth_error row k = Some x -> (0 < Qsum (map exp row))%Q.
Proof.
  intros Hk. apply Qsum_positive.
  - destruct row; [destruct k; discriminate Hk|discriminate].
  - apply Forall_forall. intros e He. apply in_map_iff in He.
    destruct He as (y & <- & _). apply exp_positive.
Qed.

(** Softmax keeps the greedy choice: the largest probability of a row sits
    where the largest logit does. *)
Lemma softmax_keeps_argmax (row : Tensor1) (p : Q) (k : nat) :
  is_argmax (softmax exp row) p k <->
  exists x, is_argmax row x k /\ p = (exp x / Qsum (map exp row))%Q.
Proof.
  unfold is_argmax. split.
  - intros (Hk & Hmax & Hfirst). rewrite softmax_nth_error in Hk.
    destruct (nth_error row k) as [x|] eqn:Hx; [|discriminate Hk].
    cbn in Hk. injection Hk as <-.
    pose proof (softmax_sum_positive row k x Hx) as Hz.
    assert (Hiz : (0 < / Qsum (map exp row))%Q)
      by (apply Qinv_lt_0_compat; exact Hz).
    exists x. split; [|reflexivity]. split; [reflexivity|]. split.
    + intros j q Hj. apply exp_le.
      apply (Qmult_le_r _ _ (/ Qsum (map exp row))%Q Hiz).
      apply (Hmax j). rewrite softmax_nth_error, Hj. reflexivity.
    + intros j q Hlt Hj. apply exp_lt.
      apply (Qmult_lt_r _ _ (/ Qsum (map exp row))%Q Hiz).
      apply (Hfirst j); [exact Hlt|].
      rewrite softmax_nth_error, Hj. reflexivity.
  - intros (x & (Hx & Hmax & Hfirst) & ->).
    pose proof (softmax_sum_positive row k x Hx) as Hz.
    assert (Hiz : (0 < / Qsum (map exp row))%Q)
      by (apply Qinv_lt_0_compat; exact Hz).
    split; [rewrite softmax_nth_error, Hx; reflexivity|]. split.
    + intros j q Hj. rewrite softmax_nth_error in Hj.
      destruct (nth_error row j) as [y|] eqn:Hy; [|discriminate Hj].
      cbn in Hj. injection Hj as <-.
      apply (Qmult_le_r _ _ (/ Qsum (map exp row))%Q Hiz).
      apply exp_le. apply (Hmax j). exact Hy.
    + intros j q Hlt Hj. rewrite softmax_nth_error in Hj.
      destruct (nth_error row j) as [y|] eqn:Hy; [|discriminate Hj].
      cbn in Hj. injection Hj as <-.
      apply (Qmult_lt_r _ _ (/ Qsum (map exp row))%Q Hiz).
      apply exp_lt. apply (Hfirst j); assumption.
Qed.

End SoftmaxOrder.

(** C3.  The decoding step of [solve_captcha] changes neither the solver nor
    the printed text, and its value is [Tokenizer.decode] on the softmax of
    the logits.  The softmax runs along the last axis: the probabilities have
    the shape of the logits, and the entry for token [k] at position [j] is
    [exp x / (exp x1 + ... + exp xn)] over the logits [x1 .. xn] of that
    position alone.  So each position gets positive probabilities that add up
    to one, and the largest of them sits where the largest logit does. *)
Theorem decoder_step_softmax
        (exp : Q -> Q) (Session : Type) (tk : Tokenizer.t) (logits : Tensor3) :
  (forall x, (0 < exp x)%Q) ->
  (forall x y, (x < y)%Q -> (exp x < exp y)%Q) ->
  (forall x y, (x == y)%Q -> (exp x == exp y)%Q) ->
  let probs := softmax_last exp logits in
  (forall st : State Session,
      decode_logits exp Session tk logits st = (st, Tokenizer.decode tk probs)) /\
  List.length probs = List.length logits /\
  (forall i item, nth_error logits i = Some item ->
     exists item',
       nth_error probs i = Some item' /\
       List.length item' = List.length item /\
       forall j row, nth_error item j = Some row ->
         exists row',
           nth_error item' j = Some row' /\
           List.length row' = List.length row /\
           (forall k x, nth_error row k = Some x ->
              nth_error row' k = Some (exp x / Qsum (map exp row))%Q) /\
           (row <> [] -> is_distribution row') /\
           (forall p k,
              is_argmax row' p k <->
              exists x, is_argmax row x k /\
                        p = (exp x / Qsum (map exp row))%Q)).
Proof.
  intros Hpos Hinc Hprop probs. split; [intros st; reflexivity|].
  split; [unfold probs, softmax_last; apply length_map|].
  intros i item Hi. exists (map (softmax exp) item).
  split; [unfold probs, softmax_last; rewrite nth_error_map;
          exact (f_equal (option_map _) Hi)|].
  split; [apply length_map|].
  intros j row Hj. exists (softmax exp row).
  split; [rewrite nth_error_map; exact (f_equal (option_map _) Hj)|].
  split; [apply softmax_length|]. split; [|split].
  - intros k x Hk. rewrite softmax_nth_error, Hk. reflexivity.
  - intros Hne. apply softmax_is_distribution; assumption.
  - intros p k. apply softmax_keeps_argmax; assumption.
Qed.

(** A run of [decoder_step_softmax] on the logits of "ab": the first position
    gives token 11 the probability 5/103. *)
Lemma decoder_step_softmax_witness :
  exists item' row',
    nth_error (softmax_last Demo.exp Demo.logits_ab) 0 = Some item' /\
    nth_error item' 0 = Some row' /\
    nth_error row' 11
    = Some (Demo.exp 4 / Qsum (map Demo.exp (Demo.spike 99 11)))%Q /\
    (Demo.exp 4 / Qsum (map Demo.exp (Demo.spike 99 11)) == 5 # 103)%Q.
Proof.
  destruct (decoder_step_softmax Demo.exp Demo.Session
              (Tokenizer.make solver_charset) Demo.logits_ab
              demo_exp_positive demo_exp_increasing demo_exp_proper)
    as (_ & _ & H).
  destruct (H 0 _ eq_refl) as (item' & Hi & _ & Hrows).
  destruct (Hrows 0 _ eq_refl) as (row' & Hj & _ & Hval & _).
  exists item', row'. split; [exact Hi|]. split; [exact Hj|].
  split; [apply (Hval 11 4%Q); reflexivity|]. vm_compute. reflexivity.
Defined.

Example decode_demo_logits :
  exists conf,
    Tokenizer.decode (Tokenizer.make solver_charset)
      (softmax_last Demo.exp Demo.logits_ab) = inr (["ab"%string], [conf]).
Proof. eexists. vm_compute. reflexivity. Qed.

(** ** The solve call *)

Section SolveFacts.

Variable resample :
  InterpolationMode -> Image -> nat -> nat -> nat -> nat -> nat -> Z.
Variable exp : Q -> Q.
Variable Session : Type.
Variable get_inputs : Session -> list string.
Variable ort_run :
  Session -> list (string * Tensor4) -> Session * result (list Tensor3).

Local Abbreviation solve := (solve_captcha resample exp Session get_inputs ort_run).
Local Abbreviation solve_try :=
  (solve_captcha_try resample exp Session get_inputs ort_run).
Local Abbreviation run := (session_run Session get_inputs ort_run).

(** The value of the [try] block, given what each stage produced. *)
Lemma solve_try_success (img : pyobj) (st st1 : State Session) (x : Tensor4)
      (logits : Tensor3) (result : string) (texts : list string)
      (confs : list Q) :
  preprocess resample (transform Session (self Session st)) img = inr x ->
  run x st = (st1, inr logits) ->
  Tokenizer.decode (tokenizer Session (self Session st))
                   (softmax_last exp logits) = inr (result :: texts, confs) ->
  solve_try img st
  = (mkState (self Session st1)
             (stdout Session st1 ++ [("CAPTCHA solved: " ++ result)%string]),
     inr (PyStr result)).
Proof.
  intros Hpre Hrun Hdec.
  unfold solve_captcha_try, bind, get_self, lift, decode_logits.
  rewrite Hpre, Hrun, Hdec. reflexivity.
Qed.

(** The [try] block yields a string or raises. *)
Lemma solve_try_value (img : pyobj) (st st1 : State Session) (v : pyval) :
  solve_try img st = (st1, inr v) -> exists text, v = PyStr text.
Proof.
  unfold solve_captcha_try, bind, get_self, lift, decode_logits, print, ret.
  intros H.
  destruct (preprocess _ _ img) as [e|x]; cbn in H; [discriminate H|].
  destruct (run x st) as [st' [e|logits]]; cbn in H; [discriminate H|].
  destruct (Tokenizer.decode _ _) as [e|[preds confs]]; cbn in H;
    [discriminate H|].
  destruct (first_pred preds) as [e|r]; cbn in H; [discriminate H|].
  inversion H. eauto.
Qed.

(** [solve_captcha] never raises: a raised exception becomes [None]. *)
Lemma solve_catches (img : pyobj) (st : State Session) :
  (exists st1 e,
      solve_try img st = (st1, inl e) /\
      solve img st
      = (mkState (self Session st1)
                 (stdout Session st1
                  ++ [("Error solving CAPTCHA: " ++ exc_msg e)%string]),
         inr PyNone)) \/
  (exists st1 text,
      solve_try img st = (st1, inr (PyStr text)) /\
      solve img st = (st1, inr (PyStr text))).
Proof.
  unfold solve_captcha, try_except.
  destruct (solve_try img st) as [st1 [e|v]] eqn:E.
  - left. exists st1, e. split; reflexivity.
  - right. destruct (solve_try_value _ _ _ _ E) as [text ->]. eauto.
Qed.

End SolveFacts.

Section SessionFacts.

Variable resample :
  InterpolationMode -> Image -> nat -> nat -> nat -> nat -> nat -> Z.
Variable exp : Q -> Q.
Variable Session : Type.
Variable get_inputs : Session -> list string.
Variable ort_run :
  Session -> list (string * Tensor4) -> Session * result (list Tensor3).

(** The assumption of the specification on the model: a run leaves the
    session as it found it. *)
Hypothesis run_keeps_session : forall s inputs, fst (ort_run s inputs) = s.

Local Abbreviation solve := (solve_captcha resample exp Session get_inputs ort_run).
Local Abbreviation solve_try :=
  (solve_captcha_try resample exp Session get_inputs ort_run).
Local Abbreviation run := (session_run Session get_inputs ort_run).

Lemma session_run_keeps_state (x : Tensor4) (st : State Session) :
  fst (run x st) = st.
Proof.
  destruct st as [[mf sz cs tk tf s] out].
  unfold session_run, set_session. cbn.
  destruct (get_inputs s) as [|name names]; [reflexivity|].
  destruct (ort_run s _) as [s' outs] eqn:E.
  assert (Hs : s' = s).
  { match type of E with
    | ort_run s ?i = _ => rewrite <- (run_keeps_session s i), E
    end. reflexivity. }
  subst s'. destruct outs as [e|[|l ls]]; reflexivity.
Qed.

Lemma session_run_by_self (x : Tensor4) (st st' : State Session) :
  self Session st = self Session st' -> snd (run x st) = snd (run x st').
Proof.
  intros H. unfold session_run. rewrite H.
  destruct (get_inputs _) as [|name names]; [reflexivity|].
  destruct (ort_run _ _) as [s' [e|[|l ls]]]; reflexivity.
Qed.

(** A solve call leaves the solver object as it was. *)
Lemma solve_keeps_self (img : pyobj) (st : State Session) :
  self Session (fst (solve img st)) = self Session st.
Proof.
  unfold solve_captcha, try_except, solve_captcha_try, bind, get_self, lift,
    decode_logits, print, ret.
  destruct (preprocess _ _ img) as [e|x]; cbn; [reflexivity|].
  pose proof (session_run_keeps_state x st) as Hst.
  destruct (run x st) as [st1 [e|logits]]; cbn in *; subst st1; [reflexivity|].
  destruct (Tokenizer.decode _ _) as [e|[preds confs]]; cbn; [reflexivity|].
  destruct (first_pred preds) as [e|r]; reflexivity.
Qed.

(** The value of a solve call depends on the solver object and the image,
    not on what was printed before. *)
Lemma solve_by_self (img : pyobj) (st st' : State Session) :
  self Session st = self Session st' ->
  snd (solve img st) = snd (solve img st').
Proof.
  intros H.
  unfold solve_captcha, try_except, solve_captcha_try, bind, get_self, lift,
    decode_logits, print, ret.
  rewrite H.
  destruct (preprocess _ _ img) as [e|x]; cbn; [reflexivity|].
  pose proof (session_run_by_self x st st' H) as Hv.
  destruct (run x st) as [st1 [e|logits]];
    destruct (run x st') as [st1' [e'|logits']]; cbn in Hv;
    try discriminate Hv; cbn.
  - reflexivity.
  - inversion Hv; subst logits'.
    destruct (Tokenizer.decode _ _) as [e|[preds confs]]; cbn; [reflexivity|].
    destruct (first_pred preds) as [e|r]; reflexivity.
Qed.

End SessionFacts.




(** ** Construction of the solver *)

Section InitFacts.

Variable Session : Type.
Variable ModelProto : Type.
Variable onnx_parse : string -> result ModelProto.
Variable check_model : ModelProto -> result unit.
Variable session_of_bytes : string -> result Session.

Local Abbreviation init :=
  (__init__ Session ModelProto onnx_parse check_model session_of_bytes).
Local Abbreviation init_model :=
  (_initialize_model Session ModelProto onnx_parse check_model session_of_bytes).

Lemma init_missing (fs : FileSystem) :
  fs "captcha.onnx"%string = None ->
  init fs = inl (FileNotFoundError "Model file 'captcha.onnx' not found!").
Proof.
  intros H. unfold __init__, path_exists. rewrite H. reflexivity.
Qed.

(** With the file in place, [__init__] raises whatever
    [_initialize_model] raises. *)
Lemma init_propagates (fs : FileSystem) (bytes : string) (e : Exception) :
  fs "captcha.onnx"%string = Some bytes ->
  init_model fs "captcha.onnx"%string (32, 128) = inl e ->
  init fs = inl e.
Proof.
  intros H He. unfold __init__, path_exists. rewrite H. cbn [negb].
  rewrite He. reflexivity.
Qed.

Lemma init_model_stages (fs : FileSystem) (bytes : string) :
  fs "captcha.onnx"%string = Some bytes ->
  init_model fs "captcha.onnx"%string (32, 128)
  = rbind (onnx_parse bytes) (fun m =>
    rbind (check_model m) (fun _ =>
    rbind (session_of_bytes bytes) (fun s =>
    inr (_get_transform (32, 128), s)))).
Proof.
  intros H. unfold _initialize_model, onnx_load, InferenceSession.
  rewrite H. reflexivity.
Qed.

Lemma init_success (fs : FileSystem) (bytes : string) (m : ModelProto)
      (s : Session) :
  fs "captcha.onnx"%string = Some bytes ->
  onnx_parse bytes = inr m -> check_model m = inr tt ->
  session_of_bytes bytes = inr s ->
  init fs = inr (mkSolver "captcha.onnx" (32, 128) solver_charset
                          (Tokenizer.make solver_charset)
                          (_get_transform (32, 128)) s).
Proof.
  intros H Hm Hc Hs. unfold __init__, path_exists. rewrite H. cbn [negb].
  rewrite (init_model_stages fs bytes H), Hm. cbn [rbind].
  rewrite Hc. cbn [rbind]. rewrite Hs. reflexivity.
Qed.

Lemma init_inversion (fs : FileSystem) (o : SimpleCaptchaSolver Session) :
  init fs = inr o ->
  exists bytes m,
    fs "captcha.onnx"%string = Some bytes /\
    onnx_parse bytes = inr m /\ check_model m = inr tt /\
    session_of_bytes bytes = inr (ort_session Session o) /\
    o = mkSolver "captcha.onnx" (32, 128) solver_charset
                 (Tokenizer.make solver_charset)
                 (_get_transform (32, 128)) (ort_session Session o).
Proof.
  unfold __init__, path_exists.
  destruct (fs "captcha.onnx"%string) as [bytes|] eqn:H; cbn [negb];
    [|discriminate].
  rewrite (init_model_stages fs bytes H).
  destruct (onnx_parse bytes) as [e|m] eqn:Hm; cbn [rbind]; [discriminate|].
  destruct (check_model m) as [e|[]] eqn:Hc; cbn [rbind]; [discriminate|].
  destruct (session_of_bytes bytes) as [e|s] eqn:Hs; cbn [rbind];
    [discriminate|].
  intros E. inversion E; subst. exists bytes, m. repeat split; assumption.
Qed.

End InitFacts.

(** C6.  Construction raises at once when the artifact is missing
    ([FileNotFoundError]), malformed (the parser's exception) or rejected by
    the structural check (the checker's exception), and also when the session
    cannot be created; it succeeds exactly when the file exists, parses, passes
    the check and yields a session.  When it raises, the GUI holds no solver:
    [solver_ready] is false and the four method buttons are disabled. *)
Theorem construction_fails_fast
        (Session ModelProto : Type)
        (onnx_parse : string -> result ModelProto)
        (check_model : ModelProto -> result unit)
        (session_of_bytes : string -> result Session)
        (fs : FileSystem) (clip : string) :
  let init :=
    __init__ Session ModelProto onnx_parse check_model session_of_bytes fs in
  let g :=
    gui__init__ Session ModelProto onnx_parse check_model session_of_bytes
                fs clip in
  (fs "captcha.onnx"%string = None ->
   init = inl (FileNotFoundError "Model file 'captcha.onnx' not found!")) /\
  (forall bytes e,
      fs "captcha.onnx"%string = Some bytes -> onnx_parse bytes = inl e ->
      init = inl e) /\
  (forall bytes m e,
      fs "captcha.onnx"%string = Some bytes -> onnx_parse bytes = inr m ->
      check_model m = inl e -> init = inl e) /\
  (forall bytes m e,
      fs "captcha.onnx"%string = Some bytes -> onnx_parse bytes = inr m ->
      check_model m = inr tt -> session_of_bytes bytes = inl e ->
      init = inl e) /\
  (forall o,
      init = inr o <->
      exists bytes m s,
        fs "captcha.onnx"%string = Some bytes /\ onnx_parse bytes = inr m /\
        check_model m = inr tt /\ session_of_bytes bytes = inr s /\
        o = mkSolver "captcha.onnx" (32, 128) solver_charset
                     (Tokenizer.make solver_charset)
                     (_get_transform (32, 128)) s) /\
  (forall e,
      init = inl e ->
      solver Session g = None /\ solver_ready Session g = false /\
      clipboard_btn Session g = disabled /\ monitor_btn Session g = disabled /\
      file_btn Session g = disabled /\ screen_btn Session g = disabled).
Proof.
  intros init g. split; [|split; [|split; [|split; [|split]]]].
  - apply init_missing.
  - intros bytes e H Hm. apply (init_propagates _ _ _ _ _ fs bytes e H).
    rewrite (init_model_stages _ _ _ _ _ fs bytes H), Hm. reflexivity.
  - intros bytes m e H Hm Hc. apply (init_propagates _ _ _ _ _ fs bytes e H).
    rewrite (init_model_stages _ _ _ _ _ fs bytes H), Hm. cbn [rbind].
    rewrite Hc. reflexivity.
  - intros bytes m e H Hm Hc Hs. apply (init_propagates _ _ _ _ _ fs bytes e H).
    rewrite (init_model_stages _ _ _ _ _ fs bytes H), Hm. cbn [rbind].
    rewrite Hc. cbn [rbind]. rewrite Hs. reflexivity.
  - intros o. split.
    + intros H. destruct (init_inversion _ _ _ _ _ fs o H)
        as (bytes & m & Hf & Hm & Hc & Hs & Ho).
      exists bytes, m, (ort_session Session o). repeat split; assumption.
    + intros (bytes & m & s & Hf & Hm & Hc & Hs & ->).
      apply (init_success _ _ _ _ _ fs bytes m s Hf Hm Hc Hs).
  - intros e He. unfold g, gui__init__. fold init. rewrite He.
    repeat split.
Qed.

(** A run of [construction_fails_fast] on a zero-byte artifact. *)
Lemma construction_fails_fast_witness :
  __init__ Demo.Session Demo.ModelProto Demo.onnx_parse Demo.check_model
           Demo.session_of_bytes Demo.fs_zero_byte
  = inl (mkExc "DecodeError" "Error parsing message").
Proof.
  apply (proj1 (proj2 (construction_fails_fast
                         Demo.Session Demo.ModelProto Demo.onnx_parse
                         Demo.check_model Demo.session_of_bytes
                         Demo.fs_zero_byte ""%string)) ""%string);
    reflexivity.
Defined.

Example construction_demo :
  (exists o, __init__ Demo.Session Demo.ModelProto Demo.onnx_parse
               Demo.check_model Demo.session_of_bytes Demo.fs_ok = inr o) /\
  __init__ Demo.Session Demo.ModelProto Demo.onnx_parse Demo.check_model
           Demo.session_of_bytes Demo.fs_invalid
  = inl (mkExc "ValidationError" "model is not valid") /\
  __init__ Demo.Session Demo.ModelProto Demo.onnx_parse Demo.check_model
           Demo.session_of_bytes Demo.fs_missing
  = inl (FileNotFoundError "Model file 'captcha.onnx' not found!").
Proof. repeat split. eexists. reflexivity. Qed.

(** ** Failures and repeated requests *)

(** C5.  Whatever is raised while preprocessing, running the model or
    decoding is caught by [solve_captcha], which then prints the error and
    returns [None]; the call itself never raises.  A failed request leaves the
    solver as it was, so the next request gets the value it would have got
    without it (the model being, as the specification assumes, free of state
    carried between runs).  Construction has no handler: what
    [__init__] or [_initialize_model] raises reaches the caller. *)
Theorem solve_contains_failures
        (resample : InterpolationMode -> Image -> nat -> nat -> nat -> nat -> nat -> Z)
        (exp : Q -> Q) (Session : Type) (get_inputs : Session -> list string)
        (ort_run : Session -> list (string * Tensor4)
                   -> Session * result (list Tensor3))
        (ModelProto : Type) (onnx_parse : string -> result ModelProto)
        (check_model : ModelProto -> result unit)
        (session_of_bytes : string -> result Session) :
  (forall s inputs, fst (ort_run s inputs) = s) ->
  let solve := solve_captcha resample exp Session get_inputs ort_run in
  let solve_try := solve_captcha_try resample exp Session get_inputs ort_run in
  let init :=
    __init__ Session ModelProto onnx_parse check_model session_of_bytes in
  (forall img st, exists st1 v, solve img st = (st1, inr v)) /\
  (forall img st st1 e,
      solve_try img st = (st1, inl e) ->
      solve img st
      = (mkState (self Session st1)
                 (stdout Session st1
                  ++ [("Error solving CAPTCHA: " ++ exc_msg e)%string]),
         inr PyNone)) /\
  (forall img1 img2 st,
      snd (solve img1 st) = inr PyNone ->
      self Session (fst (solve img1 st)) = self Session st /\
      snd (solve img2 (fst (solve img1 st))) = snd (solve img2 st)) /\
  (forall fs,
      (fs "captcha.onnx"%string = None ->
       init fs = inl (FileNotFoundError "Model file 'captcha.onnx' not found!")) /\
      (forall bytes e,
          fs "captcha.onnx"%string = Some bytes ->
          _initialize_model Session ModelProto onnx_parse check_model
                            session_of_bytes fs "captcha.onnx"%string (32, 128)
          = inl e ->
          init fs = inl e)).
Proof.
  intros Hpure solve solve_try init. split; [|split; [|split]].
  - intros img st.
    destruct (solve_catches resample exp Session get_inputs ort_run img st)
      as [(st1 & e & _ & H)|(st1 & text & _ & H)]; eauto.
  - intros img st st1 e H. unfold solve, solve_captcha, try_except.
    fold solve_try. rewrite H. reflexivity.
  - intros img1 img2 st _.
    assert (Hself := solve_keeps_self resample exp Session get_inputs ort_run
                       Hpure img1 st).
    split; [exact Hself|].
    apply (solve_by_self resample exp Session get_inputs ort_run).
    exact Hself.
  - intros fs. split.
    + apply init_missing.
    + intros bytes e. apply init_propagates.
Qed.

(** A run of [solve_contains_failures]: a clipboard holding file names makes
    the first request fail; the request that follows is served as usual. *)
Lemma solve_contains_failures_witness :
  snd (Demo.solve (PList ["captcha.png"%string]) Demo.state0) = inr PyNone /\
  snd (Demo.solve (PImage Demo.gray)
                  (fst (Demo.solve (PList ["captcha.png"%string]) Demo.state0)))
  = snd (Demo.solve (PImage Demo.gray) Demo.state0).
Proof.
  split; [reflexivity|].
  destruct (solve_contains_failures
              Demo.resample Demo.exp Demo.Session Demo.get_inputs Demo.ort_run
              Demo.ModelProto Demo.onnx_parse Demo.check_model
              Demo.session_of_bytes (fun s inputs => eq_refl))
    as (_ & _ & H & _).
  apply (H (PList ["captcha.png"%string]) (PImage Demo.gray) Demo.state0).
  reflexivity.
Defined.

(** ** The callers of the solver *)

Lemma falsy_solutions (v : pyval) :
  v = PyNone \/ v = PyStr EmptyString -> truthy v = false.
Proof. intros [->| ->]; reflexivity. Qed.

(** C10 (as amended).  Every caller tests the solution for truth, so the
    empty string is handled exactly like [None].  In the clipboard, file and
    screen-capture callers this is the failure branch: the solution display,
    the copy button and the clipboard stay as they were, the status line
    reports the failure and an error box is shown.  The auto-monitor caller
    has no failure branch: it changes nothing and reports nothing. *)
Theorem empty_solution_is_failure
        (Session : Type) (float_str : Q -> string) (g : GUI Session)
        (v : pyval) :
  v = PyNone \/ v = PyStr EmptyString ->
  let untouched (g' : GUI Session) :=
    solution_var Session g' = solution_var Session g /\
    copy_btn Session g' = copy_btn Session g /\
    pyperclip Session g' = pyperclip Session g /\
    bells Session g' = bells Session g in
  (solve_from_clipboard_result Session float_str (PyStr EmptyString) g
   = solve_from_clipboard_result Session float_str PyNone g /\
   auto_solve_clipboard_result Session float_str (PyStr EmptyString) g
   = auto_solve_clipboard_result Session float_str PyNone g /\
   load_image_file_result Session float_str (PyStr EmptyString) g
   = load_image_file_result Session float_str PyNone g /\
   end_selection_result Session float_str (PyStr EmptyString) g
   = end_selection_result Session float_str PyNone g) /\
  (let g' := solve_from_clipboard_result Session float_str v g in
   untouched g' /\
   status_var Session g' = (mark_fail ++ " Could not solve CAPTCHA")%string /\
   dialogs Session g'
   = dialogs Session g ++ [showerror "Error" "Could not solve this CAPTCHA"]) /\
  (let g' := load_image_file_result Session float_str v g in
   untouched g' /\
   status_var Session g' = (mark_fail ++ " Could not solve image")%string /\
   dialogs Session g'
   = dialogs Session g ++ [showerror "Error" "Could not solve this image"]) /\
  (let g' := end_selection_result Session float_str v g in
   untouched g' /\
   status_var Session g'
   = (mark_fail ++ " Could not solve selected region")%string /\
   dialogs Session g'
   = dialogs Session g ++ [showerror "Error" "Could not solve selected region"]) /\
  auto_solve_clipboard_result Session float_str v g = g.
Proof.
  intros Hv untouched. apply falsy_solutions in Hv.
  unfold solve_from_clipboard_result, auto_solve_clipboard_result,
    load_image_file_result, end_selection_result, untouched.
  rewrite Hv. cbn. repeat split.
Qed.

(** A run of [empty_solution_is_failure] after a successful start. *)
Lemma empty_solution_is_failure_witness :
  let g := gui__init__ Demo.Session Demo.ModelProto Demo.onnx_parse
                       Demo.check_model Demo.session_of_bytes Demo.fs_ok
                       "copied before"%string in
  auto_solve_clipboard_result Demo.Session Demo.float_str (PyStr EmptyString) g
  = g.
Proof.
  intros g.
  destruct (empty_solution_is_failure Demo.Session Demo.float_str g
              (PyStr EmptyString) (or_intror eq_refl))
    as (_ & _ & _ & _ & H).
  exact H.
Defined.

(** C10, the claim as stated fails: in the auto-monitor caller an empty
    solution (like [None]) reports no error at all, while the clipboard caller
    does show an error box. *)
Lemma auto_monitor_reports_nothing :
  let g := gui__init__ Demo.Session Demo.ModelProto Demo.onnx_parse
                       Demo.check_model Demo.session_of_bytes Demo.fs_ok
                       "copied before"%string in
  dialogs Demo.Session
    (auto_solve_clipboard_result Demo.Session Demo.float_str
       (PyStr EmptyString) g) = [] /\
  status_var Demo.Session
    (auto_solve_clipboard_result Demo.Session Demo.float_str
       (PyStr EmptyString) g) = "Ready - Choose a method above"%string /\
  dialogs Demo.Session
    (solve_from_clipboard_result Demo.Session Demo.float_str
       (PyStr EmptyString) g)
  = [showerror "Error" "Could not solve this CAPTCHA"].
Proof. repeat split. Qed.

(** ** Further facts about the solve call *)

Section SolveExtras.

Variable resample :
  InterpolationMode -> Image -> nat -> nat -> nat -> nat -> nat -> Z.
Variable exp : Q -> Q.
Variable Session : Type.
Variable get_inputs : Session -> list string.
Variable ort_run :
  Session -> list (string * Tensor4) -> Session * result (list Tensor3).

Local Abbreviation solve := (solve_captcha resample exp Session get_inputs ort_run).
Local Abbreviation solve_try :=
  (solve_captcha_try resample exp Session get_inputs ort_run).
Local Abbreviation run := (session_run Session get_inputs ort_run).

Lemma session_run_keeps_stdout (x : Tensor4) (st : State Session) :
  stdout Session (fst (run x st)) = stdout Session st.
Proof.
  unfold session_run.
  destruct (get_inputs _) as [|name names]; [reflexivity|].
  destruct (ort_run _ _) as [s' [e|[|l ls]]]; reflexivity.
Qed.

(** What the [try] block leaves behind: nothing printed when it raised, one
    text when it returned. *)
Lemma solve_try_stdout (img : pyobj) (st : State Session) :
  match solve_try img st with
  | (st1, inl e) => stdout Session st1 = stdout Session st
  | (st1, inr v) =>
      exists r, v = PyStr r /\
                stdout Session st1
                = stdout Session st ++ [("CAPTCHA solved: " ++ r)%string]
  end.
Proof.
  unfold solve_captcha_try, bind, get_self, lift, decode_logits, print, ret.
  destruct (preprocess _ _ img) as [e|x]; cbn; [reflexivity|].
  pose proof (session_run_keeps_stdout x st) as Hout.
  destruct (run x st) as [st1 [e|logits]]; cbn in *; [exact Hout|].
  destruct (Tokenizer.decode _ _) as [e|[preds confs]]; cbn; [exact Hout|].
  destruct (first_pred preds) as [e|r]; cbn; [exact Hout|].
  exists r. rewrite Hout. split; reflexivity.
Qed.

(** X1.  Every solve call calls [print] exactly once (the text of that one
    call spans several lines when the message of the exception does): with
    the solved text when it returns a string, with the error message when it
    returns [None]. *)
Theorem solve_prints_once (img : pyobj) (st : State Session) :
  exists st1 v text,
    solve img st = (st1, inr v) /\
    stdout Session st1 = stdout Session st ++ [text] /\
    match v with
    | PyStr r => text = ("CAPTCHA solved: " ++ r)%string
    | PyNone => exists e, text = ("Error solving CAPTCHA: " ++ exc_msg e)%string
    | PyPair _ _ => False
    end.
Proof.
  unfold solve_captcha, try_except.
  pose proof (solve_try_stdout img st) as H.
  destruct (solve_try img st) as [st1 [e|v]].
  - eexists _, PyNone, _. split; [reflexivity|]. cbn. rewrite H.
    split; [reflexivity|]. exists e. reflexivity.
  - destruct H as (r & -> & Hout).
    exists st1, (PyStr r), ("CAPTCHA solved: " ++ r)%string.
    split; [reflexivity|]. split; [exact Hout|reflexivity].
Qed.

(** The three stages of a solve call end with the text [r]. *)
Lemma solve_string_iff (img : pyobj) (st : State Session) (r : string) :
  snd (solve img st) = inr (PyStr r) <->
  exists x st1 logits texts confs,
    preprocess resample (transform Session (self Session st)) img = inr x /\
    run x st = (st1, inr logits) /\
    Tokenizer.decode (tokenizer Session (self Session st))
                     (softmax_last exp logits) = inr (r :: texts, confs).
Proof.
  split.
  - unfold solve_captcha, try_except, solve_captcha_try, bind, get_self, lift,
      decode_logits, print, ret.
    destruct (preprocess _ _ img) as [e|x]; cbn; [discriminate|].
    destruct (run x st) as [st1 [e|logits]] eqn:Hrun; cbn; [discriminate|].
    destruct (Tokenizer.decode _ _) as [e|[[|r' texts] confs]] eqn:Hdec; cbn;
      try discriminate.
    intros H. inversion H; subst r'.
    exists x, st1, logits, texts, confs. repeat split; assumption.
  - intros (x & st1 & logits & texts & confs & Hpre & Hrun & Hdec).
    unfold solve_captcha, try_except.
    rewrite (solve_try_success resample exp Session get_inputs ort_run
               img st st1 x logits r texts confs Hpre Hrun Hdec).
    reflexivity.
Qed.

(** X2.  A solve call never raises and returns a string or [None], nothing
    else.  It returns the string [r] exactly when preprocessing yields a
    tensor, the session yields logits for it, and decoding their softmax
    yields [r] as the first text; it returns [None] exactly when no text
    comes out of these three stages. *)
Theorem solve_outcome_by_stages (img : pyobj) (st : State Session) :
  let stages (r : string) :=
    exists x st1 logits texts confs,
      preprocess resample (transform Session (self Session st)) img = inr x /\
      run x st = (st1, inr logits) /\
      Tokenizer.decode (tokenizer Session (self Session st))
                       (softmax_last exp logits) = inr (r :: texts, confs) in
  (exists v, snd (solve img st) = inr v /\
             (v = PyNone \/ exists r, v = PyStr r)) /\
  (forall r, snd (solve img st) = inr (PyStr r) <-> stages r) /\
  (snd (solve img st) = inr PyNone <-> forall r, ~ stages r).
Proof.
  intros stages.
  assert (Hv : exists v, snd (solve img st) = inr v /\
                         (v = PyNone \/ exists r, v = PyStr r)).
  { destruct (solve_catches resample exp Session get_inputs ort_run img st)
      as [(st1 & e & _ & H)|(st1 & text & _ & H)]; rewrite H; cbn; eauto. }
  split; [exact Hv|]. split; [intros r; apply solve_string_iff|].
  split.
  - intros Hnone r Hr. apply solve_string_iff in Hr.
    rewrite Hr in Hnone. discriminate Hnone.
  - intros Hno. destruct Hv as (v & Hv & [->|[r ->]]); [exact Hv|].
    exfalso. apply (Hno r). apply solve_string_iff. exact Hv.
Qed.

End SolveExtras.

(** X3.  When preprocessing raises, the call prints the error and returns
    [None] with the solver object untouched; the outcome does not involve the
    inference runtime, which is not run. *)
Theorem preprocessing_failure_skips_inference
        (resample : InterpolationMode -> Image -> nat -> nat -> nat -> nat -> nat -> Z)
        (exp : Q -> Q) (Session : Type)
        (get_inputs get_inputs' : Session -> list string)
        (ort_run ort_run' : Session -> list (string * Tensor4)
                            -> Session * result (list Tensor3))
        (img : pyobj) (st : State Session) (e : Exception) :
  preprocess resample (transform Session (self Session st)) img = inl e ->
  solve_captcha resample exp Session get_inputs ort_run img st
  = (mkState (self Session st)
             (stdout Session st
              ++ [("Error solving CAPTCHA: " ++ exc_msg e)%string]),
     inr PyNone) /\
  solve_captcha resample exp Session get_inputs ort_run img st
  = solve_captcha resample exp Session get_inputs' ort_run' img st.
Proof.
  intros H.
  unfold solve_captcha, try_except, solve_captcha_try, bind, get_self, lift.
  rewrite H. split; reflexivity.
Qed.

(** A run of [preprocessing_failure_skips_inference]: file names instead of
    an image. *)
Lemma preprocessing_failure_skips_inference_witness :
  Demo.solve (PList ["a.png"%string]) Demo.state0
  = (mkState (self Demo.Session Demo.state0)
             ["Error solving CAPTCHA: 'list' object has no attribute 'convert'"%string],
     inr PyNone).
Proof.
  apply (proj1 (preprocessing_failure_skips_inference
                  Demo.resample Demo.exp Demo.Session
                  Demo.get_inputs Demo.get_inputs Demo.ort_run Demo.ort_run
                  (PList ["a.png"%string]) Demo.state0
                  (AttributeError "convert") eq_refl)).
Defined.

(** ** Order and end points of the normalisation *)

Lemma normalized_linear (p : Z) :
  (normalized p == (2 # 255) * inject_Z p - 1)%Q.
Proof.
  unfold normalized, Qdiv.
  change (/ 255)%Q with (1#255)%Q. change (/ (1#2))%Q with 2%Q. ring.
Qed.

Lemma normalized_lt (p q : Z) :
  (p < q)%Z <-> (normalized p < normalized q)%Q.
Proof.
  rewrite !normalized_linear, Zlt_Qlt. split; intros H; lra.
Qed.

Lemma normalized_eq (p q : Z) :
  p = q <-> (normalized p == normalized q)%Q.
Proof.
  rewrite !normalized_linear. split.
  - intros ->. reflexivity.
  - intros H. apply inject_Z_injective. lra.
Qed.

(** X5.  In the tensor handed to the model, values are ordered as the bytes
    of the resized pixels they come from: a larger byte gives a larger value,
    equal bytes give equal values, byte 0 gives -1 and byte 255 gives 1, and
    no other byte gives either. *)
Theorem normalization_keeps_order
        (resample : InterpolationMode -> Image -> nat -> nat -> nat -> nat -> nat -> Z)
        (im : Image) (c y x c' y' x' : nat) :
  c < 3 -> y < 32 -> x < 128 -> c' < 3 -> y' < 32 -> x' < 128 ->
  let resized := resize resample (32, 128) BICUBIC (convert_RGB im) in
  exists t : Tensor3,
    preprocess resample (_get_transform (32, 128)) (PImage im) = inr [t] /\
    let p := band (getpixel resized x y) c in
    let p' := band (getpixel resized x' y') c' in
    let v := nth x (nth y (nth c t []) []) 0%Q in
    let v' := nth x' (nth y' (nth c' t []) []) 0%Q in
    ((p < p')%Z <-> (v < v')%Q) /\
    (p = p' <-> (v == v')%Q) /\
    (p = 0%Z <-> (v == -(1))%Q) /\
    (p = 255%Z <-> (v == 1)%Q).
Proof.
  intros Hc Hy Hx Hc' Hy' Hx' resized.
  exists (normalize (1#2) (1#2) (to_tensor resized)).
  split.
  { unfold preprocess. cbn [convert rbind]. rewrite compose_on_image.
    reflexivity. }
  intros p p' v v'.
  assert (Hshape : has_shape 3 32 128 (to_tensor resized))
    by exact (to_tensor_shape resized).
  assert (Hv : v = normalized p).
  { unfold v. rewrite (normalize_nth _ _ 3 32 128 _ c y x Hshape Hc Hy Hx).
    rewrite (to_tensor_nth resized c y x Hc Hy Hx). reflexivity. }
  assert (Hv' : v' = normalized p').
  { unfold v'.
    rewrite (normalize_nth _ _ 3 32 128 _ c' y' x' Hshape Hc' Hy' Hx').
    rewrite (to_tensor_nth resized c' y' x' Hc' Hy' Hx'). reflexivity. }
  rewrite Hv, Hv'. split; [apply normalized_lt|]. split; [apply normalized_eq|].
  assert (E0 : (normalized 0 == -(1))%Q) by (vm_compute; reflexivity).
  assert (E1 : (normalized 255 == 1)%Q) by (vm_compute; reflexivity).
  split.
  - rewrite <- E0. apply normalized_eq.
  - rewrite <- E1. apply normalized_eq.
Qed.

(** A run of [normalization_keeps_order] on two pixels of the gray sample. *)
Lemma normalization_keeps_order_witness :
  let resized := resize Demo.resample (32, 128) BICUBIC (convert_RGB Demo.gray) in
  exists t : Tensor3,
    preprocess Demo.resample (_get_transform (32, 128)) (PImage Demo.gray)
    = inr [t] /\
    let p := band (getpixel resized 0 0) 0 in
    let p' := band (getpixel resized 127 31) 2 in
    let v := nth 0 (nth 0 (nth 0 t []) []) 0%Q in
    let v' := nth 127 (nth 31 (nth 2 t []) []) 0%Q in
    ((p < p')%Z <-> (v < v')%Q) /\
    (p = p' <-> (v == v')%Q) /\
    (p = 0%Z <-> (v == -(1))%Q) /\
    (p = 255%Z <-> (v == 1)%Q).
Proof.
  apply (normalization_keeps_order Demo.resample Demo.gray 0 0 0 2 31 127); lia.
Defined.

(** ** The GUI methods *)

Section MethodFacts.

Variable resample :
  InterpolationMode -> Image -> nat -> nat -> nat -> nat -> nat -> Z.
Variable exp : Q -> Q.
Variable Session : Type.
Variable get_inputs : Session -> list string.
Variable ort_run :
  Session -> list (string * Tensor4) -> Session * result (list Tensor3).
Variable float_str : Q -> string.
Variable copy_fault : option Exception.
Variable thumbnail : Image -> nat * nat -> Image.
Variable image_open : FileSystem -> string -> result pyobj.

Local Abbreviation call :=
  (solver_call resample exp Session get_inputs ort_run).
Local Abbreviation handle := (handle_result Session float_str).
Local Abbreviation show := (display_image Session thumbnail).

Lemma display_keeps_gui (img : pyobj) (a : App Session) :
  gui Session (show img a) = gui Session a.
Proof. destruct img as [im|names|converted [e|photo]]; reflexivity. Qed.

(** A call of the solver from a method changes, of the widgets, nothing but
    the solver object held. *)
Lemma solver_call_gui (img : pyobj) (a : App Session) :
  gui Session (fst (call img a))
  = set_solver Session (solver Session (gui Session (fst (call img a))))
               (gui Session a).
Proof.
  unfold solver_call. destruct a as [g out cur lbl mon btn ms th vis alive].
  destruct g as [o rdy b1 b2 b3 b4 b5 sol stat clip ds bl]. cbn.
  destruct o as [o|]; [|reflexivity].
  destruct (solve_captcha _ _ _ _ _ img _) as [st r]. reflexivity.
Qed.

Lemma solver_call_dialogs (img : pyobj) (a : App Session) :
  dialogs Session (gui Session (fst (call img a)))
  = dialogs Session (gui Session a).
Proof. rewrite solver_call_gui. reflexivity. Qed.

(** Every caller but the monitor shows exactly one box for a solution; the
    monitor shows one for a true solution and none otherwise. *)
Lemma handle_result_dialogs (c : caller) (v : pyval) (g : GUI Session) :
  (exists d, dialogs Session (handle c v g) = dialogs Session g ++ [d]) \/
  (c = FromMonitor /\ truthy v = false /\ handle c v g = g).
Proof.
  destruct c; cbn;
    unfold solve_from_clipboard_result, auto_solve_clipboard_result,
      load_image_file_result, end_selection_result;
    destruct (truthy v); cbn; eauto.
Qed.

(** X6.  Each click on "Solve from Clipboard" ends with exactly one message
    box, whatever the clipboard holds and whatever the solver does; with an
    empty clipboard it is the warning, and nothing is printed, solved or
    copied. *)
Theorem clipboard_click_shows_one_box
        (grabbed : result (option pyobj)) (a : App Session) :
  let a' := solve_from_clipboard resample exp Session get_inputs ort_run
                                 float_str copy_fault thumbnail grabbed a in
  (exists d,
      dialogs Session (gui Session a') = dialogs Session (gui Session a) ++ [d]) /\
  (grabbed = inr None ->
   (exists msg, dialogs Session (gui Session a')
                = dialogs Session (gui Session a) ++ [showwarning "No Image" msg]) /\
   status_var Session (gui Session a') = "No image in clipboard"%string /\
   console Session a' = console Session a /\
   solver Session (gui Session a') = solver Session (gui Session a) /\
   solution_var Session (gui Session a') = solution_var Session (gui Session a) /\
   pyperclip Session (gui Session a') = pyperclip Session (gui Session a) /\
   current_image Session a' = current_image Session a).
Proof.
  intros a'. split.
  - unfold a', solve_from_clipboard.
    destruct grabbed as [e|[img|]]; cbn; eauto.
    match goal with
    | |- context [call img ?b] =>
        pose proof (solver_call_dialogs img b) as Hd;
        destruct (call img b) as [a1 [e|v]]
    end; cbn in Hd |- *.
    + rewrite Hd, display_keeps_gui. cbn. eauto.
    + destruct (if truthy v then copy_fault else None) as [e|]; cbn.
      * rewrite Hd, display_keeps_gui. cbn. eauto.
      * destruct (handle_result_dialogs FromClipboard v (gui Session a1))
          as [[d H]|(Hc & _)]; [|discriminate Hc].
        cbn in H. rewrite H, Hd, display_keeps_gui. cbn. eauto.
  - intros ->. unfold a'. cbn. repeat split. eauto.
Qed.

(** X7.  When the clipboard holds file names instead of an image and a solver
    exists, the click prints the display error and the solver's error, keeps
    the image, the solution and the solver as they were, and reports that the
    CAPTCHA could not be solved. *)
Theorem clipboard_files_are_reported
        (names : list string) (a : App Session)
        (o : SimpleCaptchaSolver Session) :
  solver Session (gui Session a) = Some o ->
  let a' := solve_from_clipboard resample exp Session get_inputs ort_run
                                 float_str copy_fault thumbnail
                                 (inr (Some (PList names))) a in
  console Session a'
  = console Session a
    ++ ["Display error: 'list' object has no attribute 'thumbnail'"%string;
        "Error solving CAPTCHA: 'list' object has no attribute 'convert'"%string] /\
  dialogs Session (gui Session a')
  = dialogs Session (gui Session a)
    ++ [showerror "Error" "Could not solve this CAPTCHA"] /\
  status_var Session (gui Session a')
  = (mark_fail ++ " Could not solve CAPTCHA")%string /\
  solver Session (gui Session a') = Some o /\
  solution_var Session (gui Session a') = solution_var Session (gui Session a) /\
  pyperclip Session (gui Session a') = pyperclip Session (gui Session a) /\
  current_image Session a' = current_image Session a.
Proof.
  intros Ho a'. unfold a', solve_from_clipboard, solver_call.
  destruct a as [g out cur lbl mon btn ms th vis alive].
  destruct g as [og rdy b1 b2 b3 b4 b5 sol stat clip ds bl].
  cbn in Ho. subst og. cbn.
  destruct o as [mf sz cs tk tf s]. cbn.
  rewrite <- app_assoc. repeat split.
Qed.

(** X8.  "Load Image File": a cancelled dialog changes nothing; a chosen path
    ends with exactly one message box; and a file that cannot be opened gives
    the error box only, the status line, the solver, the printed text and the
    solution staying as they were. *)
Theorem file_load_shows_one_box
        (fs : FileSystem) (file_path : string) (a : App Session) :
  let a' := load_image_file resample exp Session get_inputs ort_run
                            float_str copy_fault thumbnail image_open fs
                            file_path a in
  (file_path = EmptyString -> a' = a) /\
  (file_path <> EmptyString ->
   exists d,
     dialogs Session (gui Session a') = dialogs Session (gui Session a) ++ [d]) /\
  (forall e,
      file_path <> EmptyString -> image_open fs file_path = inl e ->
      a' = on_gui Session
             (messagebox Session
                (showerror "Error" ("Error loading image: " ++ exc_msg e)%string))
             a).
Proof.
  intros a'. unfold a', load_image_file. split; [|split].
  - intros ->. reflexivity.
  - intros Hne. apply String.eqb_neq in Hne. rewrite Hne.
    destruct (image_open fs file_path) as [e|img]; cbn; eauto.
    match goal with
    | |- context [call ?i ?b] =>
        pose proof (solver_call_dialogs i b) as Hd;
        destruct (call i b) as [a1 [e|v]]
    end; cbn in Hd |- *.
    + rewrite Hd, display_keeps_gui. eauto.
    + destruct (if truthy v then copy_fault else None) as [e|]; cbn.
      * rewrite Hd, display_keeps_gui. eauto.
      * destruct (handle_result_dialogs FromFile v (gui Session a1))
          as [[d H]|(Hc & _)]; [|discriminate Hc].
        cbn in H. rewrite H, Hd, display_keeps_gui. cbn. eauto.
  - intros e Hne He. apply String.eqb_neq in Hne. rewrite Hne, He.
    reflexivity.
Qed.

(** X9.  The monitor's solve never shows an error or a warning: either it
    shows nothing and rings no bell, or it shows one information box, rings
    the bell once, and the clipboard holds the solution displayed. *)
Theorem auto_solve_is_quiet (img : pyobj) (a : App Session) :
  let a' := auto_solve_clipboard resample exp Session get_inputs ort_run
                                 float_str copy_fault thumbnail img a in
  (dialogs Session (gui Session a') = dialogs Session (gui Session a) /\
   bells Session (gui Session a') = bells Session (gui Session a)) \/
  (exists title message,
      dialogs Session (gui Session a')
      = dialogs Session (gui Session a) ++ [showinfo title message] /\
      bells Session (gui Session a') = S (bells Session (gui Session a)) /\
      pyperclip Session (gui Session a') = solution_var Session (gui Session a') /\
      copy_btn Session (gui Session a') = normal).
Proof.
  intros a'. unfold a', auto_solve_clipboard.
  match goal with
  | |- context [call img ?b] =>
      pose proof (solver_call_gui img b) as Hg;
      destruct (call img b) as [a1 [e|v]]
  end; cbn in Hg |- *.
  - left. rewrite Hg, display_keeps_gui. split; reflexivity.
  - unfold auto_solve_clipboard_result.
    destruct (truthy v); [destruct copy_fault as [e|]|]; cbn.
    + left. rewrite Hg, display_keeps_gui. split; reflexivity.
    + right. eexists _, _. cbn. rewrite Hg, display_keeps_gui. cbn.
      repeat split.
    + left. rewrite Hg, display_keeps_gui. split; reflexivity.
Qed.

End MethodFacts.

(** A run of [clipboard_files_are_reported] on the started application. *)
Lemma clipboard_files_are_reported_witness :
  let a' := solve_from_clipboard Demo.resample Demo.exp Demo.Session
              Demo.get_inputs Demo.ort_run Demo.float_str None Demo.thumbnail
              (inr (Some (PList ["captcha.png"%string]))) Demo.app0 in
  console Demo.Session a'
  = ["Display error: 'list' object has no attribute 'thumbnail'"%string;
     "Error solving CAPTCHA: 'list' object has no attribute 'convert'"%string] /\
  dialogs Demo.Session (gui Demo.Session a')
  = [showerror "Error" "Could not solve this CAPTCHA"].
Proof.
  intros a'.
  destruct (clipboard_files_are_reported
              Demo.resample Demo.exp Demo.Session Demo.get_inputs Demo.ort_run
              Demo.float_str None Demo.thumbnail ["captcha.png"%string]
              Demo.app0
              (Demo.solver_with Demo.logits_ab) eq_refl)
    as (Hout & Hd & _).
  split; [exact Hout|exact Hd].
Defined.

(** A truncated file is opened without complaint; showing it and solving it
    both fail on its data, and the method reports an unsolved image. *)
Example load_truncated_file :
  let a' := load_image_file Demo.resample Demo.exp Demo.Session
              Demo.get_inputs Demo.ort_run Demo.float_str None Demo.thumbnail
              Demo.image_open Demo.fs_app "cut.png" Demo.app0 in
  console Demo.Session a'
  = ["Display error: image file is truncated"%string;
     "Error solving CAPTCHA: image file is truncated"%string] /\
  current_image Demo.Session a' = None /\
  dialogs Demo.Session (gui Demo.Session a')
  = [showerror "Error" "Could not solve this image"].
Proof. repeat split. Qed.

(** A solved file on a machine where [pyperclip.copy] raises: the solution is
    displayed, and the error box of the [except] branch is the one shown. *)
Example load_file_copy_fails :
  let a' := load_image_file Demo.resample Demo.exp Demo.Session
              Demo.get_inputs Demo.ort_run Demo.float_str
              (Some (mkExc "PyperclipException" "no copy mechanism"))
              Demo.thumbnail Demo.image_open Demo.fs_app "shot.png"
              Demo.app0 in
  solution_var Demo.Session (gui Demo.Session a') = "ab"%string /\
  pyperclip Demo.Session (gui Demo.Session a') = "copied before"%string /\
  dialogs Demo.Session (gui Demo.Session a')
  = [showerror "Error" "Error loading image: no copy mechanism"].
Proof. repeat split. Qed.

(** ** The solution kept by the GUI *)

Section SolutionFacts.

Variable Session : Type.
Variable float_str : Q -> string.

Local Abbreviation handle := (handle_result Session float_str).
Local Abbreviation later := (after_results Session float_str).

Lemma failed_result_keeps_solution (c : caller) (v : pyval) (g : GUI Session) :
  truthy v = false ->
  solution_var Session (handle c v g) = solution_var Session g /\
  copy_btn Session (handle c v g) = copy_btn Session g /\
  pyperclip Session (handle c v g) = pyperclip Session g.
Proof.
  intros Hv. destruct c; cbn;
    unfold solve_from_clipboard_result, auto_solve_clipboard_result,
      load_image_file_result, end_selection_result;
    rewrite Hv; repeat split.
Qed.

Lemma failed_results_keep_solution (rs : list (caller * pyval))
      (g : GUI Session) :
  Forall (fun r => truthy (snd r) = false) rs ->
  solution_var Session (later rs g) = solution_var Session g /\
  copy_btn Session (later rs g) = copy_btn Session g /\
  pyperclip Session (later rs g) = pyperclip Session g.
Proof.
  intros H. revert g. induction H as [|[c v] rs Hv _ IH]; intros g.
  - repeat split.
  - unfold after_results; cbn [fold_left fst snd].
    destruct (failed_result_keeps_solution c v g Hv) as (H1 & H2 & H3).
    destruct (IH (handle c v g)) as (I1 & I2 & I3). unfold after_results in *.
    rewrite I1, I2, I3. auto.
Qed.

Lemma solved_result_is_kept (c : caller) (s : string) (g : GUI Session) :
  s <> EmptyString ->
  solution_var Session (handle c (PyStr s) g) = s /\
  copy_btn Session (handle c (PyStr s) g) = normal /\
  pyperclip Session (handle c (PyStr s) g) = s.
Proof.
  intros Hs. apply String.eqb_neq in Hs.
  destruct c; cbn;
    unfold solve_from_clipboard_result, auto_solve_clipboard_result,
      load_image_file_result, end_selection_result;
    cbn [truthy]; rewrite Hs; repeat split.
Qed.

(** X10.  A solution found by any caller stays on display and copyable
    through any number of later failed solves (from any caller, returning
    [None] or the empty text).  "Copy Solution" then hands that same solution
    to [pyperclip.copy]: when the copy returns, one box says so and the
    display is unchanged; when it raises, the exception leaves the method. *)
Theorem solution_survives_failures
        (copy_fault : option Exception)
        (c : caller) (s : string) (rs : list (caller * pyval))
        (g : GUI Session) :
  s <> EmptyString -> s <> "No solution yet"%string ->
  Forall (fun r => truthy (snd r) = false) rs ->
  let g1 := later rs (handle c (PyStr s) g) in
  solution_var Session g1 = s /\
  copy_btn Session g1 = normal /\
  match copy_solution Session copy_fault g1 with
  | inl e => copy_fault = Some e
  | inr g2 =>
      copy_fault = None /\
      pyperclip Session g2 = s /\
      solution_var Session g2 = s /\
      copy_btn Session g2 = normal /\
      dialogs Session g2
      = dialogs Session g1
        ++ [showinfo "Copied!"
              ("Solution '" ++ s ++ "' copied to clipboard!")%string]
  end.
Proof.
  intros Hs Hp Hrs g1.
  destruct (solved_result_is_kept c s g Hs) as (S1 & S2 & S3).
  destruct (failed_results_keep_solution rs (handle c (PyStr s) g) Hrs)
    as (F1 & F2 & F3).
  fold g1 in F1, F2, F3.
  assert (E1 : solution_var Session g1 = s) by congruence.
  assert (E2 : copy_btn Session g1 = normal) by congruence.
  split; [exact E1|]. split; [exact E2|].
  unfold copy_solution. rewrite E1.
  apply String.eqb_neq in Hs, Hp. rewrite Hs, Hp. cbn.
  destruct copy_fault as [e|]; [reflexivity|]. cbn.
  repeat split; assumption.
Qed.

(** "Copy Solution" does nothing while no solution was found. *)
Lemma copy_without_solution (copy_fault : option Exception) (g : GUI Session) :
  solution_var Session g = "No solution yet"%string \/
  solution_var Session g = EmptyString ->
  copy_solution Session copy_fault g = inr g.
Proof.
  intros [H|H]; unfold copy_solution; rewrite H; reflexivity.
Qed.

End SolutionFacts.

(** A run of [solution_survives_failures]: a file solved as "ab", then a
    silent monitor failure and an empty clipboard solve, on a machine whose
    clipboard works. *)
Lemma solution_survives_failures_witness :
  let g1 := after_results Demo.Session Demo.float_str
              [(FromMonitor, PyNone); (FromClipboard, PyStr EmptyString)]
              (handle_result Demo.Session Demo.float_str FromFile (PyStr "ab")
                 (gui Demo.Session Demo.app0)) in
  solution_var Demo.Session g1 = "ab"%string /\
  copy_btn Demo.Session g1 = normal /\
  match copy_solution Demo.Session None g1 with
  | inl e => None = Some e
  | inr g2 =>
      None = None :> option Exception /\
      pyperclip Demo.Session g2 = "ab"%string /\
      solution_var Demo.Session g2 = "ab"%string /\
      copy_btn Demo.Session g2 = normal /\
      dialogs Demo.Session g2
      = dialogs Demo.Session g1
        ++ [showinfo "Copied!" "Solution 'ab' copied to clipboard!"]
  end.
Proof.
  apply (solution_survives_failures Demo.Session Demo.float_str None FromFile
           "ab"
           [(FromMonitor, PyNone); (FromClipboard, PyStr EmptyString)]
           (gui Demo.Session Demo.app0)).
  - discriminate.
  - discriminate.
  - repeat constructor.
Defined.

(** ** The monitor *)

Section MonitorControls.

Variable Session : Type.

Lemma toggle_from_off (a : App Session) :
  monitoring Session a = false ->
  toggle_monitoring Session a = start_monitoring Session a.
Proof. intros H. unfold toggle_monitoring. rewrite H. reflexivity. Qed.

Lemma toggle_from_on (a : App Session) :
  monitoring Session a = true ->
  toggle_monitoring Session a = stop_monitoring Session a.
Proof. intros H. unfold toggle_monitoring. rewrite H. reflexivity. Qed.

(** X11.  However often "Auto-Monitor" is toggled, the flag, the button and
    the monitor status agree: after an odd number of toggles monitoring is on,
    the button offers to stop and the status says active; after an even
    number it is off, the status says so and the button offers to start (with
    the text it had at the beginning while nothing was toggled yet).  One
    thread is started per switch-on, and toggling touches neither solution
    nor boxes nor the text last copied. *)
Theorem monitor_controls_agree (n : nat) (a : App Session) :
  monitoring Session a = false ->
  monitor_status Session a = "Not monitoring"%string ->
  let a' := Nat.iter n (toggle_monitoring Session) a in
  monitoring Session a' = Nat.odd n /\
  (monitoring Session a' = true ->
   monitor_btn_text Session a' = (mark_stop ++ " Stop Auto-Monitor")%string /\
   monitor_status Session a' = (mark_cycle ++ " Monitoring active")%string) /\
  (monitoring Session a' = false ->
   monitor_btn_text Session a'
   = (if Nat.eqb n 0 then monitor_btn_text Session a
      else (mark_cycle ++ " Start Auto-Monitor")%string) /\
   monitor_status Session a' = "Not monitoring"%string) /\
  monitor_threads Session a' * 2
  = monitor_threads Session a * 2 + n + (if Nat.odd n then 1 else 0) /\
  solution_var Session (gui Session a') = solution_var Session (gui Session a) /\
  dialogs Session (gui Session a') = dialogs Session (gui Session a) /\
  pyperclip Session (gui Session a') = pyperclip Session (gui Session a).
Proof.
  intros Hoff Hstatus. induction n as [|n IH].
  - cbn. rewrite Hoff. repeat split; try discriminate; auto; lia.
  - cbn zeta in IH |- *.
    destruct IH as (Hm & Hon & Hnot & Hth & Hsol & Hd & Hclip).
    rewrite Nat.iter_succ. rewrite Nat.odd_succ, <- Nat.negb_odd.
    set (b := Nat.iter n (toggle_monitoring Session) a) in *.
    destruct (Nat.odd n) eqn:Hodd.
    + rewrite (toggle_from_on b Hm). cbn.
      repeat split; try discriminate; auto; lia.
    + rewrite (toggle_from_off b Hm). cbn.
      repeat split; try discriminate; auto; lia.
Qed.

End MonitorControls.

(** A run of [monitor_controls_agree]: four toggles after the start. *)
Lemma monitor_controls_agree_witness :
  let a' := Nat.iter 4 (toggle_monitoring Demo.Session) Demo.app0 in
  monitoring Demo.Session a' = false /\
  monitor_btn_text Demo.Session a' = (mark_cycle ++ " Start Auto-Monitor")%string /\
  monitor_status Demo.Session a' = "Not monitoring"%string /\
  monitor_threads Demo.Session a' = 2.
Proof.
  destruct (monitor_controls_agree Demo.Session 4 Demo.app0 eq_refl eq_refl)
    as (Hm & _ & Hoff & Hth & _).
  split; [exact Hm|]. split; [exact (proj1 (Hoff Hm))|].
  split; [exact (proj2 (Hoff Hm))|]. cbn in Hth |- *. lia.
Defined.

Section MonitorLoop.

Variable py_eqb : pyobj -> pyobj -> bool.

Local Abbreviation turn := (monitor_turn py_eqb).
Local Abbreviation chain_ok := (chained py_eqb).

Lemma turn_keeps_chain (m : Monitor) (obs : observation) :
  chain_ok m -> chain_ok (turn m obs).
Proof.
  intros (Hlast & Hnil & Hadj).
  destruct obs as [[current|]|e]; cbn; try (repeat split; assumption).
  destruct (differs py_eqb current (last_clipboard m)) eqn:Hd;
    [|repeat split; assumption].
  set (l := scheduled m) in *. unfold chained.
  cbn [last_clipboard scheduled]. repeat split.
  - rewrite length_app. cbn. rewrite nth_error_app2 by lia.
    replace (List.length l + 1 - 1 - List.length l) with 0 by lia. reflexivity.
  - intros H. destruct l; discriminate H.
  - intros i a b Ha Hb.
    destruct (Nat.lt_ge_cases (S i) (List.length l)) as [Hi|Hi].
    + rewrite nth_error_app1 in Ha, Hb by lia. eauto.
    + assert (Hlen : S i < List.length (l ++ [current]))
        by (apply nth_error_Some; congruence).
      rewrite length_app in Hlen. cbn in Hlen.
      assert (Ei : i = List.length l - 1) by lia.
      rewrite nth_error_app1 in Ha by lia.
      rewrite nth_error_app2 in Hb by lia.
      replace (S i - List.length l) with 0 in Hb by lia.
      cbn in Hb. inversion Hb; subst b.
      rewrite Ei, <- Hlast in Ha. unfold differs in Hd. rewrite Ha in Hd.
      apply negb_true_iff in Hd. exact Hd.
Qed.

Lemma loop_keeps_chain (observations : list observation) (m : Monitor) :
  chain_ok m -> chain_ok (fold_left turn observations m).
Proof.
  revert m. induction observations as [|obs rest IH]; intros m H; cbn.
  - exact H.
  - apply IH. apply turn_keeps_chain. exact H.
Qed.

(** Turns started from monitors that agree on the images agree on them. *)
Lemma loop_images_only (observations : list observation) (m m' : Monitor) :
  last_clipboard m = last_clipboard m' -> scheduled m = scheduled m' ->
  last_clipboard (fold_left turn observations m)
  = last_clipboard (fold_left turn observations m') /\
  scheduled (fold_left turn observations m)
  = scheduled (fold_left turn observations m').
Proof.
  revert m m'. induction observations as [|obs rest IH]; intros m m' Hl Hs; cbn.
  - auto.
  - apply IH; destruct obs as [[current|]|e]; cbn; try assumption;
      rewrite Hl; destruct (differs py_eqb current (last_clipboard m')); cbn;
      congruence.
Qed.

Lemma loop_skips_empty_looks (observations : list observation) (m : Monitor) :
  last_clipboard (fold_left turn observations m)
  = last_clipboard (fold_left turn (filter holds_content observations) m) /\
  scheduled (fold_left turn observations m)
  = scheduled (fold_left turn (filter holds_content observations) m).
Proof.
  revert m. induction observations as [|obs rest IH]; intros m; cbn.
  - auto.
  - destruct obs as [[current|]|e]; cbn [holds_content].
    + cbn [fold_left]. apply IH.
    + destruct (IH (turn m (Grabbed None))) as [H1 H2]. rewrite H1, H2.
      apply loop_images_only; reflexivity.
    + destruct (IH (turn m (GrabFailed e))) as [H1 H2]. rewrite H1, H2.
      apply loop_images_only; reflexivity.
Qed.

(** X12.  The monitor schedules a solve only for content that differs from
    the content it scheduled last: no two solves in a row are for equal
    content, and looks that find the clipboard empty or fail change nothing
    about what is scheduled (so copying the same image again after clearing
    the clipboard schedules nothing). *)
Theorem monitor_schedules_changes (observations : list observation) :
  let m := monitor_loop py_eqb observations in
  (forall i a b,
      nth_error (scheduled m) i = Some a ->
      nth_error (scheduled m) (S i) = Some b ->
      py_eqb b a = false) /\
  scheduled m
  = scheduled (monitor_loop py_eqb (filter holds_content observations)) /\
  (forall c, In c (scheduled m) -> In (Grabbed (Some c)) observations).
Proof.
  intros m. split; [|split].
  - assert (H : chain_ok m).
    { apply loop_keeps_chain. repeat split; try reflexivity.
      intros i a b Ha. destruct i; discriminate Ha. }
    exact (proj2 (proj2 H)).
  - apply (loop_skips_empty_looks observations).
  - unfold m, monitor_loop.
    assert (G : forall obs m0 c,
               In c (scheduled (fold_left turn obs m0)) ->
               In c (scheduled m0) \/ In (Grabbed (Some c)) obs).
    { induction obs as [|o rest IH]; intros m0 c Hc; cbn in *; [auto|].
      destruct (IH _ _ Hc) as [H|H]; [|auto].
      destruct o as [[current|]|e]; cbn in H; auto.
      destruct (differs py_eqb current (last_clipboard m0)); cbn in H; auto.
      apply in_app_or in H. destruct H as [H|[<-|[]]]; auto. }
    intros c Hc. destruct (G _ _ _ Hc) as [[]|H]. exact H.
Qed.

(** X13.  The monitor sleeps one second after every look at the clipboard
    and two after a look that raised, and prints one line per look that
    raised: for [n] looks of which [k] raised it has slept [n + k] seconds and
    printed [k] lines. *)
Theorem monitor_paces_itself (observations : list observation) :
  let m := monitor_loop py_eqb observations in
  let failed := filter (fun o => match o with GrabFailed _ => true | _ => false end)
                       observations in
  slept m = List.length observations + List.length failed /\
  monitor_out m
  = map (fun o => match o with
                  | GrabFailed e => ("Monitor error: " ++ exc_msg e)%string
                  | _ => EmptyString
                  end) failed.
Proof.
  intros m failed. unfold m, failed, monitor_loop.
  assert (G : forall obs m0,
             let f := filter (fun o => match o with GrabFailed _ => true
                                                | _ => false end) obs in
             slept (fold_left turn obs m0)
             = slept m0 + List.length obs + List.length f /\
             monitor_out (fold_left turn obs m0)
             = monitor_out m0
               ++ map (fun o => match o with
                                | GrabFailed e =>
                                    ("Monitor error: " ++ exc_msg e)%string
                                | _ => EmptyString
                                end) f).
  { induction obs as [|o rest IH]; intros m0; cbn.
    - split; [lia|]. rewrite app_nil_r. reflexivity.
    - destruct (IH (turn m0 o)) as [H1 H2]. rewrite H1, H2.
      destruct o as [[current|]|e]; cbn.
      + destruct (differs py_eqb current (last_clipboard m0)); cbn;
          split; try lia; reflexivity.
      + split; [lia|reflexivity].
      + split; [lia|]. rewrite <- app_assoc. reflexivity. }
  destruct (G observations (mkMonitor None [] 0 [])) as [H1 H2].
  cbn in H1, H2. split; [exact H1|exact H2].
Qed.

End MonitorLoop.

(** ** Selection of a screen region *)

Lemma dict_get_set_same (k : string) (v : Z) (d : dict) :
  dict_get k (dict_set k v d) = Some v.
Proof. unfold dict_set. cbn. rewrite String.eqb_refl. reflexivity. Qed.

(** After a press the dict holds the press point and a rectangle. *)
Lemma start_selection_keys (x y : Z) (s : Selection) :
  let d := selection_coords (start_selection x y s) in
  dict_get "start_x" d = Some x /\ dict_get "start_y" d = Some y /\
  exists item, dict_get "rect" d = Some item.
Proof.
  cbv zeta. unfold start_selection. cbv zeta. cbn [selection_coords].
  split; [reflexivity|]. split; [reflexivity|].
  eexists. apply dict_get_set_same.
Qed.

Lemma ordered_box_min_max (x1 y1 x2 y2 : Z) :
  ordered_box x1 y1 x2 y2
  = (Z.min x1 x2, Z.min y1 y2, Z.max x1 x2, Z.max y1 y2).
Proof.
  unfold ordered_box.
  destruct (Z.gtb_spec x1 x2), (Z.gtb_spec y1 y2);
    repeat f_equal; lia.
Qed.

(** A press followed by a release: the outcome in terms of the two points. *)
Lemma press_then_release (s : Selection) (ax ay bx by_ : Z) :
  exists s1,
    end_selection_box bx by_ (start_selection ax ay s)
    = inr (s1,
           if ((10 <? Z.abs (bx - ax)) && (10 <? Z.abs (by_ - ay)))%Z
           then Region (Z.min ax bx, Z.min ay by_, Z.max ax bx, Z.max ay by_)
           else TooSmall) /\
    window_open s1 = false.
Proof.
  destruct (start_selection_keys ax ay s) as (Hx & Hy & item & Hr).
  unfold end_selection_box, dict_mem, dict_item.
  rewrite Hr, Hx, Hy. cbn [rbind]. rewrite ordered_box_min_max.
  rewrite !Z.gtb_ltb.
  replace (Z.abs (Z.max ax bx - Z.min ax bx)) with (Z.abs (bx - ax)) by lia.
  replace (Z.abs (Z.max ay by_ - Z.min ay by_)) with (Z.abs (by_ - ay)) by lia.
  destruct ((10 <? Z.abs (bx - ax)) && (10 <? Z.abs (by_ - ay)))%Z;
    eexists; split; reflexivity.
Qed.

(** X14.  Pressing at one corner and releasing at the other selects the
    region between them whichever way the mouse was dragged: the box runs
    from the smaller to the larger coordinate, it is cropped only when it is
    more than 10 pixels wide and more than 10 high (so at least 11 by 11), and
    the overlay is closed in either case. *)
Theorem selection_region_is_ordered (s : Selection) (sx sy x y : Z) :
  let outcome :=
    if ((10 <? Z.abs (x - sx)) && (10 <? Z.abs (y - sy)))%Z
    then Region (Z.min sx x, Z.min sy y, Z.max sx x, Z.max sy y)
    else TooSmall in
  (exists s1,
      end_selection_box x y (start_selection sx sy s) = inr (s1, outcome) /\
      window_open s1 = false) /\
  (exists s2,
      end_selection_box sx sy (start_selection x y s) = inr (s2, outcome) /\
      window_open s2 = false) /\
  (forall x1 y1 x2 y2,
      outcome = Region (x1, y1, x2, y2) ->
      (x1 + 11 <= x2)%Z /\ (y1 + 11 <= y2)%Z).
Proof.
  intros outcome.
  split; [apply press_then_release|]. split.
  - destruct (press_then_release s x y sx sy) as (s2 & H2 & Hw).
    exists s2. split; [|exact Hw].
    rewrite H2. unfold outcome.
    replace (Z.abs (sx - x)) with (Z.abs (x - sx)) by lia.
    replace (Z.abs (sy - y)) with (Z.abs (y - sy)) by lia.
    rewrite (Z.min_comm x sx), (Z.min_comm y sy),
      (Z.max_comm x sx), (Z.max_comm y sy).
    reflexivity.
  - intros x1 y1 x2 y2. unfold outcome.
    destruct (Z.ltb_spec 10 (Z.abs (x - sx))), (Z.ltb_spec 10 (Z.abs (y - sy)));
      cbn; intros E; inversion E; subst; lia.
Qed.

Section SelectionEvents.

Variable resample :
  InterpolationMode -> Image -> nat -> nat -> nat -> nat -> nat -> Z.
Variable exp : Q -> Q.
Variable Session : Type.
Variable get_inputs : Session -> list string.
Variable ort_run :
  Session -> list (string * Tensor4) -> Session * result (list Tensor3).
Variable float_str : Q -> string.
Variable copy_fault : option Exception.
Variable thumbnail : Image -> nat * nat -> Image.
Variable crop : Image -> Z * Z * Z * Z -> Image.

Local Abbreviation call :=
  (solver_call resample exp Session get_inputs ort_run).
Local Abbreviation events :=
  (run_events resample exp Session get_inputs ort_run float_str copy_fault
              thumbnail crop).
Local Abbreviation ok := (overlay_ok Session).
Local Abbreviation handle_ev :=
  (handle_event resample exp Session get_inputs ort_run float_str copy_fault
                thumbnail crop).

Lemma solver_call_returns (img : pyobj) (a : App Session) :
  solver Session (gui Session a) <> None ->
  exists a' v,
    call img a = (a', inr v) /\
    solver Session (gui Session a') <> None /\
    root_visible Session a' = root_visible Session a.
Proof.
  intros Ho. unfold solver_call.
  destruct (solver Session (gui Session a)) as [o|]; [|congruence].
  destruct (solve_catches resample exp Session get_inputs ort_run img
              (mkState o (console Session a)))
    as [(st1 & e & _ & H)|(st1 & text & _ & H)]; rewrite H;
    eexists _, _; (split; [reflexivity|]); cbn; split; congruence.
Qed.

(** One event on a well-formed overlay: the handler returns and keeps the
    overlay well formed, or it raises what [pyperclip.copy] raised. *)
Lemma handle_event_ok (screenshot : Image) (ev : mouse_event)
      (sa : Selection * App Session) :
  ok sa ->
  match handle_ev screenshot ev sa with
  | inr sa' => ok sa'
  | inl e => copy_fault = Some e
  end.
Proof.
  destruct sa as [s a]. intros (Hkeys & Hsolver & Hroot). cbn in *.
  destruct ev as [x y|x y|x y|].
  - split; [|split]; cbn.
    + intros _. destruct (start_selection_keys x y s) as (Hx & Hy & _). eauto.
    + exact Hsolver.
    + exact Hroot.
  - unfold update_selection.
    destruct (dict_mem "rect" (selection_coords s)) eqn:Hm.
    + destruct (Hkeys eq_refl) as (sx & sy & Hx & Hy).
      unfold dict_mem in Hm. unfold dict_item. rewrite Hx, Hy.
      destruct (dict_get "rect" (selection_coords s)) as [item|] eqn:Hr;
        [|discriminate Hm].
      cbn. split; [|split]; cbn.
      * intros _. eauto.
      * exact Hsolver.
      * exact Hroot.
    + cbn. split; [|split]; cbn.
      * intros H. congruence.
      * exact Hsolver.
      * exact Hroot.
  - unfold end_selection, end_selection_box.
    destruct (dict_mem "rect" (selection_coords s)) eqn:Hm.
    + destruct (Hkeys eq_refl) as (sx & sy & Hx & Hy).
      unfold dict_item. rewrite Hx, Hy. cbn [rbind].
      destruct (ordered_box sx sy x y) as [[[x1 y1] x2] y2].
      destruct ((Z.abs (x2 - x1) >? 10) && (Z.abs (y2 - y1) >? 10))%Z;
        cbn [rbind].
      * match goal with
        | |- context [call ?i ?b] =>
            destruct (solver_call_returns i b) as (a' & v & Hc & Hs & Hv);
            [exact Hsolver|]
        end.
        rewrite Hc.
        destruct (if truthy v then copy_fault else None) as [e|] eqn:Hf;
          [destruct (truthy v); [exact Hf|discriminate Hf]|].
        split; [|split]; cbn.
        -- intros _. eauto.
        -- unfold end_selection_result. destruct (truthy v); exact Hs.
        -- intros _. unfold end_selection_result. destruct (truthy v);
             cbn; rewrite Hv; reflexivity.
      * split; [|split]; cbn.
        -- intros _. eauto.
        -- exact Hsolver.
        -- reflexivity.
    + cbn. split; [|split]; cbn.
      * intros H. congruence.
      * exact Hsolver.
      * exact Hroot.
  - split; [|split]; cbn.
    + exact Hkeys.
    + exact Hsolver.
    + reflexivity.
Qed.

Lemma run_events_ok (screenshot : Image) (evs : list mouse_event)
      (sa : Selection * App Session) :
  ok sa ->
  match events screenshot evs sa with
  | inr sa' => ok sa'
  | inl e => copy_fault = Some e
  end.
Proof.
  revert sa. induction evs as [|ev rest IH]; intros sa Hok; cbn.
  - exact Hok.
  - destruct (window_open (fst sa)); [|exact Hok].
    pose proof (handle_event_ok screenshot ev sa Hok) as H1.
    destruct (handle_ev screenshot ev sa) as [e|sa1]; cbn [rbind].
    + exact H1.
    + apply IH. exact H1.
Qed.

(** X15.  With a solver in place, whatever presses, drags, releases and
    Escape arrive on the overlay, the only exception that leaves a handler is
    the one [pyperclip.copy] raises after a region was solved (the dict is
    never read for a key it lacks); on a machine where the copy works no
    handler raises.  When the events are handled without an exception the
    solver is still in place and, once the overlay is closed, the main window
    is visible again. *)
Theorem selection_raises_only_on_copy
        (screenshot : Image) (evs : list mouse_event) (a : App Session) :
  solver Session (gui Session a) <> None ->
  match events screenshot evs (mkSelection [] [] true, a) with
  | inl e => copy_fault = Some e
  | inr (s', a') =>
      solver Session (gui Session a') <> None /\
      (window_open s' = false -> root_visible Session a' = true)
  end /\
  (copy_fault = None ->
   exists s' a',
     events screenshot evs (mkSelection [] [] true, a) = inr (s', a')).
Proof.
  intros Ho.
  assert (Hok : ok (mkSelection [] [] true, a)).
  { repeat split; cbn; [discriminate|exact Ho|discriminate]. }
  pose proof (run_events_ok screenshot evs _ Hok) as H.
  destruct (events screenshot evs (mkSelection [] [] true, a))
    as [e|[s' a']].
  - split; [exact H|]. intros Hnone. congruence.
  - destruct H as (_ & Hs & Hr). split; [split; assumption|]. eauto.
Qed.

End SelectionEvents.

(** A run of [selection_raises_only_on_copy]: a drag released far enough,
    then a stray press that no longer arrives, on a machine without a
    clipboard mechanism. *)
Lemma selection_raises_only_on_copy_witness :
  let no_clipboard :=
    mkExc "PyperclipException" "could not find a copy/paste mechanism" in
  run_events Demo.resample Demo.exp Demo.Session Demo.get_inputs Demo.ort_run
             Demo.float_str (Some no_clipboard) Demo.thumbnail Demo.crop
             Demo.gray
             [Press 40 30; Motion 20 20; Release 5 5; Press 1 1]%Z
             (mkSelection [] [] true, Demo.app0)
  = inl no_clipboard /\
  exists s' a',
    run_events Demo.resample Demo.exp Demo.Session Demo.get_inputs Demo.ort_run
               Demo.float_str None Demo.thumbnail Demo.crop Demo.gray
               [Press 40 30; Motion 20 20; Release 5 5; Press 1 1]%Z
               (mkSelection [] [] true, Demo.app0)
    = inr (s', a').
Proof.
  intros no_clipboard. split; [reflexivity|].
  apply (selection_raises_only_on_copy
           Demo.resample Demo.exp Demo.Session Demo.get_inputs Demo.ort_run
           Demo.float_str None Demo.thumbnail Demo.crop Demo.gray
           [Press 40 30; Motion 20 20; Release 5 5; Press 1 1]%Z Demo.app0);
    [discriminate|reflexivity].
Defined.

(** ** Start of the program *)

(** X16.  [main] starts the GUI only when both required files exist and the
    main window could be created; [__init__] then never raises for a missing
    model file (its own check passes), so the GUI is without a solver exactly
    when loading, checking or creating the session raised.  When a file is
    missing, three lines are printed and no GUI is built. *)
Theorem main_requires_files
        (Session ModelProto : Type)
        (onnx_parse : string -> result ModelProto)
        (check_model : ModelProto -> result unit)
        (session_of_bytes : string -> result Session)
        (fs : FileSystem) (clip : string) (root : result unit) :
  let start := main Session ModelProto onnx_parse check_model session_of_bytes
                    fs clip root in
  let init := __init__ Session ModelProto onnx_parse check_model
                       session_of_bytes fs in
  let init_model := _initialize_model Session ModelProto onnx_parse check_model
                      session_of_bytes fs "captcha.onnx"%string (32, 128) in
  (forall app,
      start = Running Session app ->
      path_exists fs "captcha.onnx" = true /\
      path_exists fs "tokenizer_base.py" = true /\
      (exists u, root = inr u) /\
      (forall e, init = inl e <-> init_model = inl e) /\
      (solver Session (gui Session app) = None <-> exists e, init_model = inl e) /\
      console Session app
      = [(mark_rocket ++ " Starting Simple CAPTCHA Solver GUI...")%string]) /\
  (path_exists fs "captcha.onnx" = false \/
   path_exists fs "tokenizer_base.py" = false ->
   exists first,
     start = Exited Session
               [first;
                "Please ensure these files are in the same directory as this script."%string;
                "Press Enter to exit..."%string]).
Proof.
  intros start init init_model.
  assert (Hinit : path_exists fs "captcha.onnx" = true ->
                  init = rbind init_model (fun '(tf, s) =>
                           inr (mkSolver "captcha.onnx"%string (32, 128)
                                  solver_charset (Tokenizer.make solver_charset)
                                  tf s))).
  { intros H. unfold init, __init__. rewrite H. reflexivity. }
  unfold start, main, required_files. cbn [filter].
  destruct (path_exists fs "captcha.onnx") eqn:H1;
    destruct (path_exists fs "tokenizer_base.py") eqn:H2; cbn [negb].
  - split; [|intros [H|H]; discriminate H].
    intros app Happ. destruct root as [e|u]; [discriminate Happ|].
    inversion Happ; subst app. clear Happ.
    specialize (Hinit eq_refl).
    split; [reflexivity|]. split; [reflexivity|]. split; [eauto|].
    split; [|split; [|reflexivity]].
    + intros e. rewrite Hinit.
      destruct init_model as [e'|[tf s]]; cbn; split; intros H;
        congruence.
    + unfold app__init__, gui__init__. cbn [gui]. fold init. rewrite Hinit.
      destruct init_model as [e'|[tf s]]; cbn; split.
      * eauto.
      * reflexivity.
      * discriminate.
      * intros [e H]. discriminate H.
  - split; [intros app H; discriminate H|]. intros _. eauto.
  - split; [intros app H; discriminate H|]. intros _. eauto.
  - split; [intros app H; discriminate H|]. intros _. eauto.
Qed.

Example main_lists_missing_files :
  main Demo.Session Demo.ModelProto Demo.onnx_parse Demo.check_model
       Demo.session_of_bytes Demo.fs_missing "" (inr tt)
  = Exited Demo.Session
      [(mark_fail ++ " Missing required files: captcha.onnx, tokenizer_base.py")%string;
       "Please ensure these files are in the same directory as this script."%string;
       "Press Enter to exit..."%string].
Proof. reflexivity. Qed.

(** X17.  A drag that ends within 10 pixels of the press point in either
    direction solves nothing: the overlay is closed, the main window comes
    back, the status line says the selection was too small, and neither the
    solver nor the solution, the boxes or the printed text change. *)
Theorem small_selection_solves_nothing
        (resample : InterpolationMode -> Image -> nat -> nat -> nat -> nat -> nat -> Z)
        (exp : Q -> Q) (Session : Type) (get_inputs : Session -> list string)
        (ort_run : Session -> list (string * Tensor4)
                   -> Session * result (list Tensor3))
        (float_str : Q -> string) (copy_fault : option Exception)
        (thumbnail : Image -> nat * nat -> Image)
        (crop : Image -> Z * Z * Z * Z -> Image)
        (screenshot : Image) (s : Selection) (a : App Session)
        (sx sy x y : Z) :
  (Z.abs (x - sx) <= 10)%Z \/ (Z.abs (y - sy) <= 10)%Z ->
  exists s',
    end_selection resample exp Session get_inputs ort_run float_str copy_fault
                  thumbnail crop screenshot x y (start_selection sx sy s) a
    = inr (s', on_gui Session (set_status_var Session "Selection too small")
                 (set_root Session true (root_alive Session a) a)) /\
    window_open s' = false.
Proof.
  intros Hsmall.
  destruct (press_then_release s sx sy x y) as (s1 & H1 & Hw).
  assert (Hb : ((10 <? Z.abs (x - sx)) && (10 <? Z.abs (y - sy)))%Z = false).
  { apply andb_false_iff. destruct Hsmall as [H|H]; [left|right];
      apply Z.ltb_ge; exact H. }
  rewrite Hb in H1. exists s1. split; [|exact Hw].
  unfold end_selection. rewrite H1. reflexivity.
Qed.

(** A run of [small_selection_solves_nothing]: a drag of 30 by 4 pixels. *)
Lemma small_selection_solves_nothing_witness :
  exists s',
    end_selection Demo.resample Demo.exp Demo.Session Demo.get_inputs
                  Demo.ort_run Demo.float_str None Demo.thumbnail Demo.crop
                  Demo.gray 40 14
                  (start_selection 10 10 (mkSelection [] [] true)) Demo.app0
    = inr (s', on_gui Demo.Session
                 (set_status_var Demo.Session "Selection too small")
                 (set_root Demo.Session true
                    (root_alive Demo.Session Demo.app0) Demo.app0)) /\
    window_open s' = false.
Proof.
  apply (small_selection_solves_nothing
           Demo.resample Demo.exp Demo.Session Demo.get_inputs Demo.ort_run
           Demo.float_str None Demo.thumbnail Demo.crop Demo.gray
           (mkSelection [] [] true) Demo.app0 10 10 40 14)%Z.
  right. cbn. lia.
Defined.
